(** * AI UI/UX Design Auditor: the multi-provider AI-response pipeline

    A shallow embedding of the actor's [main.js] in its two revisions kept
    in the repository:

    - the retrying revision (users bring their own key; chat-completion
      calls are retried on rate limits; the dataset record is the
      comprehensive one read by [src/dashboard-generator.js]);
    - the free-tier revision (single chat-completion call; flat dataset
      record).

    Provider selection, prompt selection, the retry loop, and the
    construction of the persisted [auditResult] record are embedded as
    executable functions and the properties of the specification are
    stated over them. *)

From Stdlib Require Import String Ascii List ZArith QArith Bool Lia DecimalString.
Import ListNotations.
Open Scope string_scope.
Set Warnings "-register-all".

(** ** JavaScript values *)

(** The values that flow through the pipeline.  A number is kept as the
    rational it denotes (the only operation the pipeline applies to a
    number is the truthiness test).  [VBuiltin name] stands for a member
    that an object inherits from the runtime's [Object.prototype]
    (a function object, or the prototype object itself for [__proto__]). *)
Inductive value : Type :=
| VUndefined
| VNull
| VBool (b : bool)
| VNum (q : Q)
| VStr (s : string)
| VArr (items : list value)
| VObj (props : list (string * value))
| VBuiltin (name : string).

(** A thrown exception: the error's [name] and its [message] property
    ([None] when the thrown value has no [message]). *)
Record js_error : Type := mkError {
  err_name : string;
  message : option string
}.

(** Completion of an expression or call: a value, or a throw. *)
Inductive completion (A : Type) : Type :=
| Normal (a : A)
| Throw (e : js_error).
Arguments Normal {A} a.
Arguments Throw {A} e.

Definition bind {A B : Type} (c : completion A) (k : A -> completion B)
  : completion B :=
  match c with
  | Normal a => k a
  | Throw e => Throw e
  end.

Notation "x <- c ;; k" := (bind c (fun x => k))
  (at level 61, c at next level, right associativity).

(** ToBoolean: [undefined], [null], [false], zero and the empty string are
    falsy; every object (arrays included) is truthy. *)
Definition truthy (v : value) : bool :=
  match v with
  | VUndefined | VNull => false
  | VBool b => b
  | VNum q => negb (Qnum q =? 0)%Z
  | VStr s => negb (s =? "")
  | VArr _ | VObj _ | VBuiltin _ => true
  end.

(** [a || b] *)
Definition js_or (a b : value) : value := if truthy a then a else b.

(** Own-property lookup in a property list (the first binding of a name
    is the property; the literals below bind each name once). *)
Fixpoint own_prop (props : list (string * value)) (key : string)
  : option value :=
  match props with
  | [] => None
  | (k, v) :: rest => if k =? key then Some v else own_prop rest key
  end.

(** The property names every ordinary object inherits from
    [Object.prototype]. *)
Definition Object_prototype_keys : list string :=
  [ "constructor"; "hasOwnProperty"; "isPrototypeOf"; "propertyIsEnumerable";
    "toLocaleString"; "toString"; "valueOf"; "__proto__";
    "__defineGetter__"; "__defineSetter__"; "__lookupGetter__";
    "__lookupSetter__" ].

Definition inherited (key : string) : value :=
  if existsb (String.eqb key) Object_prototype_keys
  then VBuiltin key else VUndefined.

(** Property read [receiver.key] / [receiver[key]].  Reading from
    [undefined] or [null] throws a TypeError.  For arrays and primitives
    only the members inherited from [Object.prototype] are modelled; no
    key read from such a receiver below is an index, [length], or a member
    of a more specific prototype. *)
Definition get_prop (receiver : value) (key : string) : completion value :=
  match receiver with
  | VUndefined =>
      Throw (mkError "TypeError"
        (Some ("Cannot read properties of undefined (reading '" ++ key ++ "')")))
  | VNull =>
      Throw (mkError "TypeError"
        (Some ("Cannot read properties of null (reading '" ++ key ++ "')")))
  | VObj props =>
      match own_prop props key with
      | Some v => Normal v
      | None => Normal (inherited key)
      end
  | _ => Normal (inherited key)
  end.

(** [s.startsWith(p)] *)
Definition startsWith (s p : string) : bool := String.prefix p s.

(** [s.includes(needle)] *)
Fixpoint includes (s needle : string) : bool :=
  String.prefix needle s ||
  match s with
  | EmptyString => false
  | String _ rest => includes rest needle
  end.

(** ** Analysis prompts *)

Definition ANALYSIS_PROMPTS_general : string :=
"You are a world-class UI/UX Designer. Analyze this website screenshot and evaluate:
- Overall visual aesthetics and design quality
- Layout and visual hierarchy
- Typography and readability
- Color scheme effectiveness
- User experience and usability
- First impression impact

Provide a comprehensive analysis.".

Definition ANALYSIS_PROMPTS_accessibility : string :=
"You are a WCAG accessibility expert. Analyze this website screenshot for:
- Color contrast ratios (text vs background)
- Button and touch target sizes
- Visual clarity for screen readers
- Font sizes and readability
- Accessible color combinations
- Inclusive design patterns

Focus on visual accessibility issues.".

Definition ANALYSIS_PROMPTS_conversion : string :=
"You are a Conversion Rate Optimization (CRO) expert. Analyze this website for:
- Call-to-action (CTA) visibility and effectiveness
- Trust signals and social proof
- User friction points
- Value proposition clarity
- Visual persuasion elements
- Conversion funnel clarity

Identify barriers to conversion.".

Definition ANALYSIS_PROMPTS_performance : string :=
"You are a web performance expert. Analyze this screenshot for visual indicators of:
- Image optimization opportunities
- Perceived load performance
- Layout shift indicators
- Above-the-fold optimization
- Visual weight and bloat
- Mobile performance considerations

Focus on visual performance signals.".

Definition ANALYSIS_PROMPTS_seo : string :=
"You are an SEO expert. Analyze this screenshot for visible on-page SEO elements:
- Heading structure and hierarchy (H1-H6)
- Content organization and scannability
- Visual content structure
- Keyword prominence
- Meta content visibility
- User engagement elements

Focus on visually detectable SEO factors.".

Definition ANALYSIS_PROMPTS_mobile_first : string :=
"You are a mobile UX specialist. Analyze this screenshot for:
- Mobile-first design principles
- Touch-friendly interface elements
- Responsive design patterns
- Mobile navigation effectiveness
- Thumb-friendly zones
- Screen real estate usage

Evaluate mobile user experience.".

Definition ANALYSIS_PROMPTS_brand_consistency : string :=
"You are a brand identity expert. Analyze this screenshot for:
- Color palette consistency and harmony
- Typography hierarchy and selection
- Visual brand elements
- Design system consistency
- Brand personality expression
- Visual coherence

Extract color palette and evaluate brand design.".

(** The [ANALYSIS_PROMPTS] object literal (identical in both revisions). *)
Definition ANALYSIS_PROMPTS : value :=
  VObj [ ("general", VStr ANALYSIS_PROMPTS_general);
         ("accessibility", VStr ANALYSIS_PROMPTS_accessibility);
         ("conversion", VStr ANALYSIS_PROMPTS_conversion);
         ("performance", VStr ANALYSIS_PROMPTS_performance);
         ("seo", VStr ANALYSIS_PROMPTS_seo);
         ("mobile-first", VStr ANALYSIS_PROMPTS_mobile_first);
         ("brand-consistency", VStr ANALYSIS_PROMPTS_brand_consistency) ].

(** The seven defined audit categories. *)
Definition categories : list string :=
  [ "general"; "accessibility"; "conversion"; "performance"; "seo";
    "mobile-first"; "brand-consistency" ].

(** [const prompt = ANALYSIS_PROMPTS[analysisType] || ANALYSIS_PROMPTS.general;]
    the first line of both [analyzeWithOpenAI] and [analyzeWithGemini]. *)
Definition prompt (analysisType : string) : completion value :=
  selected <- get_prop ANALYSIS_PROMPTS analysisType ;;
  fallback <- get_prop ANALYSIS_PROMPTS "general" ;;
  Normal (js_or selected fallback).

(** ** Integers, comparisons and object updates *)

(** An integer-valued number. *)
Definition VInt (n : Z) : value := VNum (inject_Z n).

(** [String(n)] for an integer [n] (plain decimal digits). *)
Definition decimal (n : Z) : string := NilZero.string_of_int (Z.to_int n).

(** [v > n] for a property that holds a number or is [undefined]
    (the comparison with [undefined] is false). *)
Definition js_gt (v : value) (n : Z) : bool :=
  match v with
  | VNum q => negb (Qle_bool q (inject_Z n))
  | _ => false
  end.

(** [object.key = v]: an existing property keeps its place, a new one
    goes last. *)
Fixpoint set_prop (props : list (string * value)) (key : string) (v : value)
  : list (string * value) :=
  match props with
  | [] => [(key, v)]
  | (k, x) :: rest =>
      if k =? key then (k, v) :: rest else (k, x) :: set_prop rest key v
  end.

(** [Object.assign(target, source)] *)
Definition Object_assign (target source : list (string * value))
  : list (string * value) :=
  fold_left (fun t kv => set_prop t (fst kv) (snd kv)) source target.

(** The value read by [object.key] from an object literal. *)
Definition prop (props : list (string * value)) (key : string) : value :=
  match own_prop props key with
  | Some v => v
  | None => inherited key
  end.

(** ** Requests, provider replies and the observable trace *)

Definition dquote : string := String "034"%char "".
Definition nl : string := String "010"%char "".
Definition quoted (s : string) : string := dquote ++ s ++ dquote.

(** The structured-output contract appended to every prompt. *)
Definition OUTPUT_SCHEMA : string :=
  "Output a strict JSON object with this exact structure:" ++ nl ++
  "{" ++ nl ++
  "  " ++ quoted "score" ++ ": <number 1-10>," ++ nl ++
  "  " ++ quoted "summary" ++ ": " ++ quoted "<brief overall assessment>" ++ "," ++ nl ++
  "  " ++ quoted "color_palette" ++ ": [" ++ quoted "#hex1" ++ ", " ++
     quoted "#hex2" ++ ", " ++ quoted "#hex3" ++ "]," ++ nl ++
  "  " ++ quoted "design_flaws" ++ ": [" ++ quoted "flaw 1" ++ ", " ++
     quoted "flaw 2" ++ ", ...]," ++ nl ++
  "  " ++ quoted "positive_aspects" ++ ": [" ++ quoted "positive 1" ++ ", " ++
     quoted "positive 2" ++ ", ...]," ++ nl ++
  "  " ++ quoted "recommendations" ++ ": [" ++ quoted "recommendation 1" ++ ", " ++
     quoted "recommendation 2" ++ ", ...]" ++ nl ++
  "}".

(** A template literal, as its literal chunks and interpolated values. *)
Inductive template_part : Type :=
| Lit (s : string)
| Interp (v : value).

(** The argument of [client.chat.completions.create]. *)
Record chat_request : Type := mkChatRequest {
  req_model : string;
  system_content : list template_part;
  user_text : string;
  image_url : string;
  response_format : string;
  max_tokens : Z
}.

(** The argument of [model.generateContent], with the model it is sent to. *)
Record gemini_request : Type := mkGeminiRequest {
  generative_model : string;
  fullPrompt : list template_part;
  inlineData : string;
  mimeType : string
}.

(** What one provider call, followed by [JSON.parse] of the returned text,
    comes to: the call (or the extraction of the text from the response)
    throws [e]; or the text is rejected by [JSON.parse], which throws a
    SyntaxError carrying [msg]; or the text parses to [v]. *)
Inductive attempt_outcome : Type :=
| CallThrows (e : js_error)
| ContentUnparsable (msg : string)
| ContentParses (v : value).

(** The body of the [try] block, once the provider has answered. *)
Definition parsed (o : attempt_outcome) : completion value :=
  match o with
  | CallThrows e => Throw e
  | ContentUnparsable msg => Throw (mkError "SyntaxError" (Some msg))
  | ContentParses v => Normal v
  end.

(** Observable effects of an invocation, in the order they happen
    (console logging is left out). *)
Inductive event : Type :=
| EvCreate (req : chat_request)
| EvGenerate (req : gemini_request)
| EvSleep (ms : Z).

(** ** Provider handles *)

Inductive client : Type :=
| OpenAI (apiKey : string) (baseURL : option string)
         (defaultHeaders : list (string * string))
| GoogleGenerativeAI (apiKey : string).

(** The object returned by [initializeAIProvider]; [model] is [None] when
    the object literal has no [model] property. *)
Record ProviderHandle : Type := mkHandle {
  type : string;
  handle_client : client;
  model : option string
}.

(** The world an invocation runs in: the state of the remote provider and
    the trace of effects so far (oldest first). *)
Record world (PS : Type) : Type := mkWorld {
  provider_state : PS;
  trace : list event
}.
Arguments mkWorld {PS} _ _.
Arguments provider_state {PS} _.
Arguments trace {PS} _.

Definition emit {PS : Type} (e : event) (w : world PS) : world PS :=
  mkWorld (provider_state w) (trace w ++ [e]).

(** [await new Promise(resolve => setTimeout(resolve, ms))] *)
Definition sleep {PS : Type} (ms : Z) (w : world PS) : world PS :=
  emit (EvSleep ms) w.

(** ** The retrying revision *)

Module Retrying.

(** [initializeAIProvider(apiKey)].  A missing key takes the same branch
    as the empty string. *)
Definition initializeAIProvider (apiKey : string) : completion ProviderHandle :=
  if negb (truthy (VStr apiKey)) then
    Throw (mkError "Error" (Some
      "API Key is required. Please provide your OpenAI, OpenRouter, or Gemini API key."))
  else if startsWith apiKey "sk-or-" then
    Normal (mkHandle "openrouter"
              (OpenAI apiKey (Some "https://openrouter.ai/api/v1")
                 [ ("HTTP-Referer", "https://apify.com/");
                   ("X-Title", "Apify UI/UX Auditor") ])
              (Some "openai/gpt-4o-mini"))
  else if startsWith apiKey "sk-" then
    Normal (mkHandle "openai" (OpenAI apiKey None []) (Some "gpt-4o"))
  else if startsWith apiKey "AIza" then
    Normal (mkHandle "gemini" (GoogleGenerativeAI apiKey) None)
  else
    Throw (mkError "Error" (Some
      "Invalid API key format. Please provide a valid OpenAI (sk-...), OpenRouter (sk-or-...), or Gemini (AIza...) API key.")).

Definition maxRetries : nat := 3.

(** [error.message?.includes('429') || error.message?.includes('rate limit')] *)
Definition is_rate_limit (error : js_error) : bool :=
  match message error with
  | Some m => includes m "429" || includes m "rate limit"
  | None => false
  end.

(** [`${lastError?.message}`] *)
Definition last_message (lastError : option js_error) : string :=
  match lastError with
  | Some (mkError _ (Some m)) => m
  | _ => "undefined"
  end.

(** The request object built inside the loop of [analyzeWithOpenAI]. *)
Definition chat_request_of (prompt : value) (screenshotBase64 analysisType url : string)
    (model : option string) : chat_request :=
  mkChatRequest
    (match model with Some m => m | None => "gpt-4o" end)
    [ Interp prompt; Lit (nl ++ nl ++ OUTPUT_SCHEMA) ]
    ("Analyze this " ++ analysisType ++ " audit for: " ++ url)
    ("data:image/png;base64," ++ screenshotBase64)
    "json_object"
    1500.

Section Invoker.

Variable PS : Type.
(** The remote end of [client.chat.completions.create] and of
    [model.generateContent]. *)
Variable chat_completions_create : chat_request -> PS -> attempt_outcome * PS.
Variable generateContent : gemini_request -> PS -> attempt_outcome * PS.

Definition call_create (req : chat_request) (w : world PS)
  : attempt_outcome * world PS :=
  let (o, s) := chat_completions_create req (provider_state w) in
  (o, mkWorld s (trace w ++ [EvCreate req])).

Definition call_generate (req : gemini_request) (w : world PS)
  : attempt_outcome * world PS :=
  let (o, s) := generateContent req (provider_state w) in
  (o, mkWorld s (trace w ++ [EvGenerate req])).

(** The loop [for (let attempt = 1; attempt <= maxRetries; attempt++)]
    with [remaining = maxRetries - attempt + 1] iterations still to run;
    the statement after the loop is the [O] case, where [${maxRetries}]
    prints as 3. *)
Fixpoint attempts (remaining : nat) (lastError : option js_error)
    (req : chat_request) (w : world PS) : completion value * world PS :=
  match remaining with
  | O =>
      (Throw (mkError "Error" (Some
         ("API failed after 3 attempts. Last error: " ++ last_message lastError))),
       w)
  | S later =>
      let attempt := (Z.of_nat maxRetries - Z.of_nat later)%Z in
      let (o, w1) := call_create req w in
      match parsed o with
      | Normal v => (Normal v, w1)
      | Throw error =>
          if is_rate_limit error then
            let waitTime := (2 ^ attempt * 1000)%Z in
            attempts later (Some error) req (sleep waitTime w1)
          else
            (Throw error, w1)
      end
  end.

(** [analyzeWithOpenAI(client, screenshotBase64, analysisType, url, model)] *)
Definition analyzeWithOpenAI (screenshotBase64 analysisType url : string)
    (model : option string) (w : world PS) : completion value * world PS :=
  match prompt analysisType with
  | Throw e => (Throw e, w)
  | Normal p =>
      attempts maxRetries None
        (chat_request_of p screenshotBase64 analysisType url model) w
  end.

(** The request of [analyzeWithGemini]. *)
Definition gemini_request_of (prompt : value)
    (screenshotBase64 analysisType url : string) : gemini_request :=
  mkGeminiRequest
    "gemini-1.5-flash-latest"
    [ Interp prompt;
      Lit (nl ++ nl ++ "Analyze this " ++ analysisType ++ " audit for: " ++ url
           ++ nl ++ nl ++ OUTPUT_SCHEMA) ]
    screenshotBase64
    "image/png".

(** [analyzeWithGemini(client, screenshotBase64, analysisType, url)] *)
Definition analyzeWithGemini (screenshotBase64 analysisType url : string)
    (w : world PS) : completion value * world PS :=
  match prompt analysisType with
  | Throw e => (Throw e, w)
  | Normal p =>
      let (o, w1) :=
        call_generate (gemini_request_of p screenshotBase64 analysisType url) w in
      (parsed o, w1)
  end.

End Invoker.

(** What the request handler has in scope when it builds [auditResult].
    The seven heuristic analyzers each return the object literal they
    start from, so their results are kept as property lists. *)
Record page_context : Type := mkContext {
  url : string;
  audit_date : string;
  analysisType : string;
  viewPort : string;
  aiProvider : ProviderHandle;
  technologies : list (string * value);
  performance : list (string * value);
  accessibility : list (string * value);
  mobile : list (string * value);
  seo : list (string * value);
  content : list (string * value);
  conversion : list (string * value);
  screenshotUrl : string
}.

(** [const auditResult = { ... }]: the comprehensive record pushed to the
    dataset, property reads in source order. *)
Definition auditResult (ctx : page_context) (aiResult : value) : completion value :=
  score <- get_prop aiResult "score" ;;
  summary <- get_prop aiResult "summary" ;;
  color_palette <- get_prop aiResult "color_palette" ;;
  design_flaws <- get_prop aiResult "design_flaws" ;;
  positive_aspects <- get_prop aiResult "positive_aspects" ;;
  recommendations <- get_prop aiResult "recommendations" ;;
  overall_ux <- get_prop aiResult "score" ;;
  performance_score <- get_prop (VObj (performance ctx)) "performance_score" ;;
  accessibility_score <- get_prop (VObj (accessibility ctx)) "accessibility_score" ;;
  mobile_score <- get_prop (VObj (mobile ctx)) "mobile_score" ;;
  seo_score <- get_prop (VObj (seo ctx)) "seo_score" ;;
  content_score <- get_prop (VObj (content ctx)) "content_score" ;;
  conversion_score <- get_prop (VObj (conversion ctx)) "conversion_score" ;;
  Normal (VObj
    [ ("url", VStr (url ctx));
      ("audit_date", VStr (audit_date ctx));
      ("analysis_type", VStr (analysisType ctx));
      ("viewport", VStr (viewPort ctx));
      ("ai_provider", VStr (type (aiProvider ctx)));
      ("overall_score", js_or score (VNum 0));
      ("ai_summary", js_or summary (VStr "No summary available"));
      ("color_palette", js_or color_palette (VArr []));
      ("design_flaws", js_or design_flaws (VArr []));
      ("positive_aspects", js_or positive_aspects (VArr []));
      ("ai_recommendations", js_or recommendations (VArr []));
      ("technology_stack", VObj (technologies ctx));
      ("performance_metrics", VObj (performance ctx));
      ("accessibility_analysis", VObj (accessibility ctx));
      ("mobile_analysis", VObj (mobile ctx));
      ("seo_analysis", VObj (seo ctx));
      ("content_analysis", VObj (content ctx));
      ("conversion_analysis", VObj (conversion ctx));
      ("scores", VObj
         [ ("overall_ux", js_or overall_ux (VNum 0));
           ("performance", performance_score);
           ("accessibility", accessibility_score);
           ("mobile", mobile_score);
           ("seo", seo_score);
           ("content", content_score);
           ("conversion", conversion_score) ]);
      ("screenshot_url", VStr (screenshotUrl ctx)) ]).

(** *** Heuristic analyzers

    Each analyzer starts from an object literal, runs a callback in the
    page through [page.evaluate], and updates the object from the data
    the callback returns; if the evaluation throws, the error is logged
    and the untouched object is returned.  The argument [evaluated] is the
    completion of [page.evaluate]. *)

(** What the callback of [analyzePerformance] returns. *)
Record perfData : Type := mkPerfData {
  imageCount : Z;
  externalLinks : Z;
  internalLinks : Z;
  formCount : Z;
  buttonCount : Z;
  scriptCount : Z;
  stylesheetCount : Z
}.

Definition perfData_object (d : perfData) : list (string * value) :=
  [ ("imageCount", VInt (imageCount d));
    ("externalLinks", VInt (externalLinks d));
    ("internalLinks", VInt (internalLinks d));
    ("formCount", VInt (formCount d));
    ("buttonCount", VInt (buttonCount d));
    ("scriptCount", VInt (scriptCount d));
    ("stylesheetCount", VInt (stylesheetCount d)) ].

(** [analyzePerformance(page)] *)
Definition analyzePerformance (evaluated : completion perfData)
  : list (string * value) :=
  let performance :=
    [ ("page_load_time", VInt 0);
      ("page_size_mb", VInt 0);
      ("image_count", VInt 0);
      ("external_links_count", VInt 0);
      ("internal_links_count", VInt 0);
      ("form_count", VInt 0);
      ("button_count", VInt 0);
      ("script_count", VInt 0);
      ("stylesheet_count", VInt 0);
      ("performance_score", VInt 0) ] in
  match evaluated with
  | Throw _ => performance
  | Normal perfData =>
      let performance := Object_assign performance (perfData_object perfData) in
      let score := 10%Z in
      let score :=
        if js_gt (prop performance "image_count") 50 then (score - 2)%Z else score in
      let score :=
        if js_gt (prop performance "script_count") 20 then (score - 1)%Z else score in
      let score :=
        if js_gt (prop performance "stylesheet_count") 10 then (score - 1)%Z else score in
      set_prop performance "performance_score" (VInt (Z.max 1 score))
  end.

(** What the callback of [analyzeAccessibility] returns. *)
Record a11yData : Type := mkA11yData {
  imagesWithoutAlt : Z;
  headingStructure : list string;
  formsWithoutLabels : Z;
  focusableElements : Z;
  ariaLabels : Z
}.

(** [analyzeAccessibility(page)] *)
Definition analyzeAccessibility (evaluated : completion a11yData)
  : list (string * value) :=
  let accessibility :=
    [ ("accessibility_score", VInt 0);
      ("wcag_violations", VArr []);
      ("keyboard_navigation_score", VInt 0);
      ("screen_reader_compatibility", VInt 0);
      ("color_blind_friendly", VBool true);
      ("font_size_compliance", VBool true);
      ("alt_text_missing", VInt 0);
      ("heading_structure_score", VInt 0);
      ("form_labels_score", VInt 0);
      ("contrast_issues", VInt 0) ] in
  match evaluated with
  | Throw _ => accessibility
  | Normal a11yData =>
      let accessibility :=
        set_prop accessibility "alt_text_missing"
          (VInt (imagesWithoutAlt a11yData)) in
      let accessibility :=
        set_prop accessibility "form_labels_score"
          (VInt (Z.max 1 (10 - formsWithoutLabels a11yData))) in
      let accessibility :=
        set_prop accessibility "heading_structure_score"
          (VInt (if (0 <? length (headingStructure a11yData))%nat
                 then 8 else 3)) in
      let score := 10%Z in
      let score :=
        if (imagesWithoutAlt a11yData >? 0)%Z then (score - 2)%Z else score in
      let score :=
        if (formsWithoutLabels a11yData >? 0)%Z then (score - 2)%Z else score in
      let score :=
        if (length (headingStructure a11yData) =? 0)%nat
        then (score - 1)%Z else score in
      let accessibility :=
        set_prop accessibility "accessibility_score" (VInt (Z.max 1 score)) in
      let wcag_violations : list value := [] in
      let wcag_violations :=
        if (imagesWithoutAlt a11yData >? 0)%Z
        then (wcag_violations ++ [VStr "missing-alt-text"])%list
        else wcag_violations in
      let wcag_violations :=
        if (formsWithoutLabels a11yData >? 0)%Z
        then (wcag_violations ++ [VStr "unlabeled-form-controls"])%list
        else wcag_violations in
      set_prop accessibility "wcag_violations" (VArr wcag_violations)
  end.

(** What the callback of [analyzeMobileResponsiveness] returns. *)
Record mobileData : Type := mkMobileData {
  viewportMeta : bool;
  smallButtons : Z;
  navigationStyle : string
}.

(** [analyzeMobileResponsiveness(page)] *)
Definition analyzeMobileResponsiveness (evaluated : completion mobileData)
  : list (string * value) :=
  let mobile :=
    [ ("mobile_score", VInt 0);
      ("responsive_breakpoints", VArr []);
      ("touch_target_compliance", VInt 0);
      ("mobile_navigation_type", VNull);
      ("viewport_meta_present", VBool false);
      ("mobile_specific_issues", VArr []) ] in
  match evaluated with
  | Throw _ => mobile
  | Normal mobileData =>
      let mobile :=
        set_prop mobile "viewport_meta_present" (VBool (viewportMeta mobileData)) in
      let mobile :=
        set_prop mobile "mobile_navigation_type"
          (VStr (navigationStyle mobileData)) in
      let mobile :=
        set_prop mobile "touch_target_compliance"
          (VInt (Z.max 1 (10 - smallButtons mobileData))) in
      let score := 10%Z in
      let score :=
        if negb (viewportMeta mobileData) then (score - 3)%Z else score in
      let score :=
        if (smallButtons mobileData >? 5)%Z then (score - 2)%Z else score in
      let mobile := set_prop mobile "mobile_score" (VInt (Z.max 1 score)) in
      if (smallButtons mobileData >? 0)%Z then
        set_prop mobile "mobile_specific_issues"
          (VArr [VStr (decimal (smallButtons mobileData)
                       ++ " touch targets smaller than 44px")])
      else mobile
  end.

(** What the callback of [analyzeContent] returns; [words] stands for
    [textContent.split(/\s+/).filter(word => word.length > 0)], the
    non-empty pieces of the page text between runs of white space. *)
Record contentData : Type := mkContentData {
  words : list string;
  paragraphs : Z;
  headings : Z;
  ctaButtons : Z;
  socialProof : list string
}.

(** [Math.round(n / 100)] for a count [n].  The quotient of a count by
    100 is rounded correctly to a double, which keeps it on its side of
    every half-integer (and exact when it is one), and [Math.round] takes
    a half up; so the result is the integer quotient of [n + 50] by 100. *)
Definition round_hundredth (n : Z) : Z := ((n + 50) / 100)%Z.

(** [analyzeContent(page)] *)
Definition analyzeContent (evaluated : completion contentData)
  : list (string * value) :=
  let content :=
    [ ("content_score", VInt 0);
      ("word_count", VInt 0);
      ("paragraph_count", VInt 0);
      ("heading_count", VInt 0);
      ("call_to_action_count", VInt 0);
      ("social_proof_elements", VArr []);
      ("readability_score", VInt 0);
      ("content_structure_score", VInt 0) ] in
  match evaluated with
  | Throw _ => content
  | Normal contentData =>
      let word_count := Z.of_nat (length (words contentData)) in
      let heading_count := headings contentData in
      let paragraph_count := paragraphs contentData in
      let call_to_action_count := ctaButtons contentData in
      let content := set_prop content "word_count" (VInt word_count) in
      let content := set_prop content "paragraph_count" (VInt paragraph_count) in
      let content := set_prop content "heading_count" (VInt heading_count) in
      let content :=
        set_prop content "call_to_action_count" (VInt call_to_action_count) in
      let content :=
        set_prop content "social_proof_elements"
          (VArr (map VStr (socialProof contentData))) in
      let content :=
        set_prop content "readability_score"
          (VInt (Z.min 10 (Z.max 1 (round_hundredth word_count)))) in
      let content :=
        set_prop content "content_structure_score"
          (VInt (Z.min 10 (heading_count + paragraph_count))) in
      let score := 5%Z in
      let score := if (word_count >? 300)%Z then (score + 2)%Z else score in
      let score := if (heading_count >? 3)%Z then (score + 1)%Z else score in
      let score :=
        if (call_to_action_count >? 0)%Z then (score + 1)%Z else score in
      let score :=
        if (0 <? length (socialProof contentData))%nat
        then (score + 1)%Z else score in
      set_prop content "content_score" (VInt (Z.min 10 score))
  end.

(** What the callback of [analyzeConversion] finds in the page: element
    counts, whether each selector matches, and the lower-cased text of
    the body. *)
Record conversion_page : Type := mkConversionPage {
  cta_elements : Z;
  form_elements : Z;
  has_secure_class : bool;
  has_testimonial_class : bool;
  has_guarantee_class : bool;
  has_badge_class : bool;
  urgencyText : string;
  requiredFields : Z;
  has_password_input : bool;
  has_signup_class : bool
}.

Record conversionData : Type := mkConversionData {
  conv_ctaButtons : Z;
  conv_forms : Z;
  trustSignals : list string;
  urgencyElements : list string;
  frictionPoints : list string
}.

(** The callback passed to [page.evaluate] by [analyzeConversion]. *)
Definition conversion_callback (page : conversion_page) : conversionData :=
  let trustSignals : list string := [] in
  let trustSignals :=
    if has_secure_class page then (trustSignals ++ ["ssl-certificate"])%list
    else trustSignals in
  let trustSignals :=
    if has_testimonial_class page then (trustSignals ++ ["testimonials"])%list
    else trustSignals in
  let trustSignals :=
    if has_guarantee_class page then (trustSignals ++ ["guarantee"])%list
    else trustSignals in
  let trustSignals :=
    if has_badge_class page then (trustSignals ++ ["awards"])%list else trustSignals in
  let urgencyElements : list string := [] in
  let urgencyElements :=
    if includes (urgencyText page) "limited time"
       || includes (urgencyText page) "expires"
    then (urgencyElements ++ ["limited-time-offer"])%list else urgencyElements in
  let urgencyElements :=
    if includes (urgencyText page) "only" && includes (urgencyText page) "left"
    then (urgencyElements ++ ["scarcity"])%list else urgencyElements in
  let urgencyElements :=
    if includes (urgencyText page) "today only"
       || includes (urgencyText page) "24 hours"
    then (urgencyElements ++ ["time-sensitive"])%list else urgencyElements in
  let frictionPoints : list string := [] in
  let frictionPoints :=
    if (requiredFields page >? 5)%Z
    then (frictionPoints ++ ["too-many-required-fields"])%list else frictionPoints in
  let frictionPoints :=
    if has_password_input page && negb (has_signup_class page)
    then (frictionPoints ++ ["login-required"])%list else frictionPoints in
  mkConversionData (cta_elements page) (form_elements page)
    trustSignals urgencyElements frictionPoints.

(** [analyzeConversion(page)] *)
Definition analyzeConversion (evaluated : completion conversion_page)
  : list (string * value) :=
  let conversion :=
    [ ("conversion_score", VInt 0);
      ("cta_visibility_score", VInt 0);
      ("trust_signals", VArr []);
      ("friction_points", VArr []);
      ("value_proposition_clarity", VInt 0);
      ("urgency_elements", VArr []);
      ("social_proof_score", VInt 0);
      ("form_optimization_score", VInt 0) ] in
  match evaluated with
  | Throw _ => conversion
  | Normal page =>
      let conversionData := conversion_callback page in
      let n_trust := Z.of_nat (length (trustSignals conversionData)) in
      let n_urgency := Z.of_nat (length (urgencyElements conversionData)) in
      let n_friction := Z.of_nat (length (frictionPoints conversionData)) in
      let conversion :=
        set_prop conversion "trust_signals"
          (VArr (map VStr (trustSignals conversionData))) in
      let conversion :=
        set_prop conversion "urgency_elements"
          (VArr (map VStr (urgencyElements conversionData))) in
      let conversion :=
        set_prop conversion "friction_points"
          (VArr (map VStr (frictionPoints conversionData))) in
      let conversion :=
        set_prop conversion "cta_visibility_score"
          (VInt (Z.min 10 (conv_ctaButtons conversionData * 2))) in
      let conversion :=
        set_prop conversion "social_proof_score"
          (VInt (Z.min 10 (n_trust * 2))) in
      let conversion :=
        set_prop conversion "form_optimization_score"
          (VInt (if (conv_forms conversionData >? 0)%Z
                 then Z.max 1 (10 - n_friction * 2) else 10)) in
      let score := 5%Z in
      let score := (score + Z.min 2 (conv_ctaButtons conversionData))%Z in
      let score := (score + Z.min 2 n_trust)%Z in
      let score := (score + Z.min 1 n_urgency)%Z in
      let score := (score - n_friction)%Z in
      set_prop conversion "conversion_score"
        (VInt (Z.max 1 (Z.min 10 score)))
  end.

(** What the callback of [analyzeSEO] returns; [None] is [null]. *)
Record seoData : Type := mkSeoData {
  seo_title : option string;
  seo_description : option string;
  h1Tags : list string;
  h2Tags : list string;
  structuredData : bool;
  imagesWithAlt : Z;
  totalImages : Z
}.

(** [!text] for a string or [null]. *)
Definition missing (text : option string) : bool :=
  match text with
  | Some s => negb (truthy (VStr s))
  | None => true
  end.

Definition string_or_null (text : option string) : value :=
  match text with
  | Some s => VStr s
  | None => VNull
  end.

Section SEO.

(** [Math.round((imagesWithAlt / totalImages) * 100)], a floating-point
    computation that is left to the runtime. *)
Variable rounded_percentage : Z -> Z -> Z.

(** [analyzeSEO(page)] *)
Definition analyzeSEO (evaluated : completion seoData) : list (string * value) :=
  let seo :=
    [ ("seo_score", VInt 0);
      ("meta_title", VNull);
      ("meta_description", VNull);
      ("h1_tags", VArr []);
      ("h2_tags", VArr []);
      ("missing_meta_tags", VArr []);
      ("structured_data_present", VBool false);
      ("image_alt_optimization", VInt 0);
      ("internal_links_count", VInt 0);
      ("external_links_count", VInt 0) ] in
  match evaluated with
  | Throw _ => seo
  | Normal seoData =>
      let seo := set_prop seo "meta_title" (string_or_null (seo_title seoData)) in
      let seo :=
        set_prop seo "meta_description"
          (string_or_null (seo_description seoData)) in
      let seo := set_prop seo "h1_tags" (VArr (map VStr (h1Tags seoData))) in
      let seo := set_prop seo "h2_tags" (VArr (map VStr (h2Tags seoData))) in
      let seo :=
        set_prop seo "structured_data_present" (VBool (structuredData seoData)) in
      let image_alt_optimization :=
        if (totalImages seoData >? 0)%Z
        then rounded_percentage (imagesWithAlt seoData) (totalImages seoData)
        else 100%Z in
      let seo :=
        set_prop seo "image_alt_optimization" (VInt image_alt_optimization) in
      let missing_meta_tags : list value := [] in
      let missing_meta_tags :=
        if missing (seo_title seoData)
        then (missing_meta_tags ++ [VStr "title"])%list else missing_meta_tags in
      let missing_meta_tags :=
        if missing (seo_description seoData)
        then (missing_meta_tags ++ [VStr "meta-description"])%list
        else missing_meta_tags in
      let seo := set_prop seo "missing_meta_tags" (VArr missing_meta_tags) in
      let score := 10%Z in
      let score := if missing (seo_title seoData) then (score - 3)%Z else score in
      let score :=
        if missing (seo_description seoData) then (score - 2)%Z else score in
      let score :=
        if (length (h1Tags seoData) =? 0)%nat then (score - 2)%Z else score in
      let score :=
        if (image_alt_optimization <? 80)%Z then (score - 1)%Z else score in
      set_prop seo "seo_score" (VInt (Z.max 1 score))
  end.

End SEO.

(** *** The request handler around the AI call, and start-up *)

(** [apiError.message?.includes(needle)] *)
Definition mentions (apiError : js_error) (needle : string) : bool :=
  match message apiError with
  | Some m => includes m needle
  | None => false
  end.

(** [`${apiError.message}`] *)
Definition message_text (apiError : js_error) : string :=
  match message apiError with
  | Some m => m
  | None => "undefined"
  end.

(** The [catch (apiError)] block of the request handler: the error that
    is thrown on to the outer [try]. *)
Definition surfaced (apiError : js_error) : js_error :=
  if mentions apiError "401" || mentions apiError "authentication" then
    mkError "Error" (Some "Invalid API Key provided. Please check your API key.")
  else if mentions apiError "429" || mentions apiError "rate limit" then
    mkError "Error" (Some
      "Rate limit exceeded. Please try again in a few minutes or upgrade your API plan.")
  else if mentions apiError "insufficient_quota" || mentions apiError "quota" then
    mkError "Error" (Some
      "API quota exceeded. Please check your API account balance or upgrade your plan.")
  else
    mkError "Error" (Some ("AI analysis failed: " ++ message_text apiError)).

Section Handler.

Variable PS : Type.
Variable chat_completions_create : chat_request -> PS -> attempt_outcome * PS.
Variable generateContent : gemini_request -> PS -> attempt_outcome * PS.

(** The step "Perform AI analysis" of the request handler: the dispatch
    on [aiProvider.type] inside [try], and its [catch]. *)
Definition perform_ai_analysis (aiProvider : ProviderHandle)
    (screenshotBase64 analysisType url : string) (w : world PS)
  : completion value * world PS :=
  let (aiResult, w1) :=
    if (type aiProvider =? "openai") || (type aiProvider =? "openrouter") then
      analyzeWithOpenAI PS chat_completions_create screenshotBase64 analysisType
        url (model aiProvider) w
    else if type aiProvider =? "gemini" then
      analyzeWithGemini PS generateContent screenshotBase64 analysisType url w
    else
      (Throw (mkError "Error" (Some
         ("Unsupported AI provider: " ++ type aiProvider))), w) in
  match aiResult with
  | Normal v => (Normal v, w1)
  | Throw apiError => (Throw (surfaced apiError), w1)
  end.

End Handler.

(** An entry of [startUrls]: a plain string or an object. *)
Inductive url_item : Type :=
| UrlString (s : string)
| UrlObject (props : list (string * value)).

(** The actor input; [None] is a property the input does not have. *)
Record actor_input : Type := mkInput {
  in_startUrls : option (list url_item);
  in_apiKey : option string;
  in_analysisType : option string;
  in_viewPort : option string;
  in_maxConcurrency : option Z
}.

(** What [Actor.main] has settled before the crawler runs. *)
Record run_config : Type := mkConfig {
  cfg_provider : ProviderHandle;
  cfg_analysisType : string;
  cfg_viewPort : string;
  cfg_viewport : Z * Z;
  cfg_maxConcurrency : Z;
  cfg_urls : list value
}.

(** [startUrls.map(item => typeof item === 'string' ? item : item.url)] *)
Definition crawl_url (item : url_item) : value :=
  match item with
  | UrlString s => VStr s
  | UrlObject props =>
      match own_prop props "url" with
      | Some v => v
      | None => inherited "url"
      end
  end.

(** The body of [Actor.main] up to the start of the crawl: input checks,
    provider initialisation, viewport and URL list (the proxy and crawler
    objects built in between belong to the platform). *)
Definition configure (input : option actor_input) : completion run_config :=
  match input with
  | None =>
      Throw (mkError "Error" (Some
        "No input provided. Please configure the actor with your API key and URLs to analyze."))
  | Some i =>
      let startUrls := match in_startUrls i with Some l => l | None => [] end in
      let analysisType :=
        match in_analysisType i with Some t => t | None => "general" end in
      let viewPort :=
        match in_viewPort i with Some v => v | None => "desktop" end in
      let maxConcurrency :=
        match in_maxConcurrency i with Some n => n | None => 5%Z end in
      if (length startUrls =? 0)%nat then
        Throw (mkError "Error" (Some
          "No URLs provided. Please add at least one URL to analyze."))
      else
        match in_apiKey i with
        | None | Some "" =>
            Throw (mkError "Error" (Some
              "API Key is required. Please provide your OpenAI, OpenRouter, or Gemini API key."))
        | Some apiKey =>
            match initializeAIProvider apiKey with
            | Throw error =>
                Throw (mkError "Error" (Some
                  ("Failed to initialize AI provider: " ++ message_text error)))
            | Normal aiProvider =>
                Normal (mkConfig aiProvider analysisType viewPort
                          (if viewPort =? "mobile" then (390, 844)%Z
                           else (1920, 1080)%Z)
                          maxConcurrency
                          (map crawl_url startUrls))
            end
        end
  end.

(** *** What runs before the comprehensive record is built *)

(** Whether [String(v)], applied by [join] to an element, returns.  A
    primitive always converts; an array converts by joining its own
    elements; an object parsed from JSON converts through the inherited
    [Object.prototype.toString] unless it has an own property
    [toString], which is never callable there, and then [valueOf] does
    not produce a primitive either. *)
Fixpoint stringifies (v : value) : bool :=
  match v with
  | VArr items => forallb stringifies items
  | VObj props =>
      match own_prop props "toString" with
      | Some _ => false
      | None => true
      end
  | _ => true
  end.

(** Whether [v.join(separator)] returns: [v] is an array whose elements
    convert to strings. *)
Definition joins (v : value) : bool :=
  match v with
  | VArr items => forallb stringifies items
  | _ => false
  end.

(** [receiver.join(separator)] as far as its completion goes: an array
    is joined, which converts each element that is not [undefined] or
    [null] to a string; anything else has no [join] method and the call
    throws a TypeError ([expression] is the source text of the
    receiver). *)
Definition join_completes (receiver : value) (expression : string)
  : completion unit :=
  match receiver with
  | VArr items =>
      if forallb stringifies items then Normal tt
      else Throw (mkError "TypeError"
             (Some "Cannot convert object to primitive value"))
  | VUndefined =>
      Throw (mkError "TypeError"
        (Some "Cannot read properties of undefined (reading 'join')"))
  | VNull =>
      Throw (mkError "TypeError"
        (Some "Cannot read properties of null (reading 'join')"))
  | _ =>
      Throw (mkError "TypeError" (Some (expression ++ ".join is not a function")))
  end.

(** The completion of [const flattenedResult = { ... }], which the
    handler evaluates in the same [try] right before [auditResult]: the
    expressions of the literal that can throw, in source order (the
    strings it produces are not modelled). *)
Definition flattenedResult_completes (ctx : page_context) (aiResult : value)
  : completion unit :=
  score <- get_prop aiResult "score" ;;
  summary <- get_prop aiResult "summary" ;;
  color_palette <- get_prop aiResult "color_palette" ;;
  joined <- join_completes (js_or color_palette (VArr []))
              "(aiResult.color_palette || [])" ;;
  design_flaws <- get_prop aiResult "design_flaws" ;;
  joined <- join_completes (js_or design_flaws (VArr []))
              "(aiResult.design_flaws || [])" ;;
  positive_aspects <- get_prop aiResult "positive_aspects" ;;
  joined <- join_completes (js_or positive_aspects (VArr []))
              "(aiResult.positive_aspects || [])" ;;
  recommendations <- get_prop aiResult "recommendations" ;;
  joined <- join_completes (js_or recommendations (VArr []))
              "(aiResult.recommendations || [])" ;;
  joined <- join_completes (prop (technologies ctx) "analytics")
              "technologies.analytics" ;;
  joined <- join_completes (prop (accessibility ctx) "wcag_violations")
              "accessibility.wcag_violations" ;;
  joined <- join_completes (prop (seo ctx) "h1_tags") "seo.h1_tags" ;;
  joined <- join_completes (prop (content ctx) "social_proof_elements")
              "content.social_proof_elements" ;;
  joined <- join_completes (prop (conversion ctx) "trust_signals")
              "conversion.trust_signals" ;;
  joined <- join_completes (prop (conversion ctx) "friction_points")
              "conversion.friction_points" ;;
  Normal tt.

(** The comprehensive record as the handler gets to build it:
    [flattenedResult] first, then [auditResult]. *)
Definition comprehensive_record (ctx : page_context) (aiResult : value)
  : completion value :=
  flattened <- flattenedResult_completes ctx aiResult ;;
  auditResult ctx aiResult.

(** Whether the metric objects hold arrays that can be joined where
    [flattenedResult] joins them (the analyzers put arrays of strings
    there). *)
Definition metric_lists_present (ctx : page_context) : bool :=
  joins (prop (technologies ctx) "analytics")
  && joins (prop (accessibility ctx) "wcag_violations")
  && joins (prop (seo ctx) "h1_tags")
  && joins (prop (content ctx) "social_proof_elements")
  && joins (prop (conversion ctx) "trust_signals")
  && joins (prop (conversion ctx) "friction_points").

End Retrying.

(** ** The free-tier revision *)

Module FreeTier.

Definition FREE_TIER_DAILY_LIMIT : Z := 5.

(** [usageTracker]: the per-run counter object. *)
Record usageTracker : Type := mkTracker {
  count : Z;
  limit : Z
}.

(** [usageTracker.getRemaining()] *)
Definition getRemaining (t : usageTracker) : Z := Z.max 0 (limit t - count t).

Record page_context : Type := mkContext {
  url : string;
  audit_date : string;
  analysisType : string;
  viewPort : string;
  aiProvider : ProviderHandle;
  screenshotUrl : string;
  isFreeMode : bool;
  tracker : usageTracker
}.

(** [const auditResult = { ... }]: the flat record pushed to the dataset. *)
Definition auditResult (ctx : page_context) (aiResult : value) : completion value :=
  score <- get_prop aiResult "score" ;;
  summary <- get_prop aiResult "summary" ;;
  color_palette <- get_prop aiResult "color_palette" ;;
  design_flaws <- get_prop aiResult "design_flaws" ;;
  positive_aspects <- get_prop aiResult "positive_aspects" ;;
  recommendations <- get_prop aiResult "recommendations" ;;
  Normal (VObj
    [ ("url", VStr (url ctx));
      ("audit_date", VStr (audit_date ctx));
      ("analysis_type", VStr (analysisType ctx));
      ("viewport", VStr (viewPort ctx));
      ("ai_provider", VStr (type (aiProvider ctx)));
      ("score", js_or score (VNum 0));
      ("summary", js_or summary (VStr "No summary available"));
      ("color_palette", js_or color_palette (VArr []));
      ("design_flaws", js_or design_flaws (VArr []));
      ("positive_aspects", js_or positive_aspects (VArr []));
      ("recommendations", js_or recommendations (VArr []));
      ("screenshot_url", VStr (screenshotUrl ctx));
      ("free_tier_remaining",
        if isFreeMode ctx
        then VNum (inject_Z (getRemaining (tracker ctx)))
        else VNull) ]).

(** [usageTracker.canProcess()] *)
Definition canProcess (t : usageTracker) : bool := (count t <? limit t)%Z.

(** [usageTracker.increment()] *)
Definition increment (t : usageTracker) : usageTracker :=
  mkTracker (count t + 1) (limit t).

Section Provider.

(** The constant [FREE_TIER_OPENROUTER_KEY], the key built into the
    source. *)
Variable FREE_TIER_OPENROUTER_KEY : string.

(** [initializeAIProvider(apiKey, useFreeMode)]; [None] is a key the
    input does not have. *)
Definition initializeAIProvider (apiKey : option string) (useFreeMode : bool)
  : completion ProviderHandle :=
  if useFreeMode then
    Normal (mkHandle "openrouter"
              (OpenAI FREE_TIER_OPENROUTER_KEY (Some "https://openrouter.ai/api/v1")
                 [ ("HTTP-Referer", "https://apify.com/");
                   ("X-Title", "Apify UI/UX Auditor") ])
              (Some "google/gemini-2.0-flash-exp:free"))
  else
    match apiKey with
    | None | Some "" =>
        Normal (mkHandle "openrouter"
                  (OpenAI FREE_TIER_OPENROUTER_KEY
                     (Some "https://openrouter.ai/api/v1")
                     [ ("HTTP-Referer", "https://apify.com/");
                       ("X-Title", "Apify UI/UX Auditor") ])
                  (Some "google/gemini-2.0-flash-exp:free"))
    | Some apiKey =>
        if startsWith apiKey "sk-or-" then
          Normal (mkHandle "openrouter"
                    (OpenAI apiKey (Some "https://openrouter.ai/api/v1") [])
                    (Some "google/gemini-2.0-flash-exp:free"))
        else if startsWith apiKey "sk-" then
          Normal (mkHandle "openai" (OpenAI apiKey None []) (Some "gpt-4o"))
        else if startsWith apiKey "AIza" then
          Normal (mkHandle "gemini" (GoogleGenerativeAI apiKey) None)
        else
          Throw (mkError "Error" (Some
            "Invalid API key format. Please provide a valid OpenAI (sk-...), OpenRouter (sk-or-...), or Gemini (AIza...) API key."))
    end.

End Provider.

(** [const isFreeMode = (aiProvider.type === 'openrouter' ||
    aiProvider.type === 'gemini') && useFreeMode && !apiKey;] *)
Definition free_mode (aiProvider : ProviderHandle) (apiKey : option string)
    (useFreeMode : bool) : bool :=
  ((type aiProvider =? "openrouter") || (type aiProvider =? "gemini"))
  && useFreeMode
  && match apiKey with
     | None | Some "" => true
     | Some _ => false
     end.

(** The request of [analyzeWithGemini] in this revision: the model is
    created with a JSON response type. *)
Record gemini_json_request : Type := mkGeminiJsonRequest {
  base_request : gemini_request;
  responseMimeType : string
}.

(** What the settled run hands to every page: provider, category,
    viewport name and whether the free-tier limit applies. *)
Record run_settings : Type := mkSettings {
  run_provider : ProviderHandle;
  run_analysisType : string;
  run_viewPort : string;
  run_isFreeMode : bool
}.

(** One page given to the request handler: its URL, the clock reading
    used for [audit_date], and the completion of the browser steps up to
    the stored screenshot (its base64 text and its URL). *)
Record page_visit : Type := mkVisit {
  visit_url : string;
  visit_clock : string;
  visit_capture : completion (string * string)
}.

(** What the handlers of a run share: the provider side, the usage
    tracker and the dataset (oldest record first). *)
Record run_state (PS : Type) : Type := mkState {
  st_world : world PS;
  st_tracker : usageTracker;
  st_dataset : list value
}.
Arguments mkState {PS} _ _ _.
Arguments st_world {PS} _.
Arguments st_tracker {PS} _.
Arguments st_dataset {PS} _.

(** [await Actor.pushData(record)] *)
Definition pushData {PS : Type} (record : value) (st : run_state PS)
  : run_state PS :=
  mkState (st_world st) (st_tracker st) (st_dataset st ++ [record]).

(** The [catch (apiError)] block of this revision. *)
Definition surfaced (apiError : js_error) : js_error :=
  let mentions needle :=
    match message apiError with
    | Some m => includes m needle
    | None => false
    end in
  if mentions "401" || mentions "authentication" then
    mkError "Error" (Some
      "Invalid API Key provided. Please check your OpenAI, OpenRouter, or Gemini API key.")
  else
    mkError "Error" (Some
      ("AI analysis failed: "
       ++ match message apiError with Some m => m | None => "undefined" end)).

(** [error.message] as stored in a record. *)
Definition message_value (error : js_error) : value :=
  match message error with
  | Some m => VStr m
  | None => VUndefined
  end.

Section Handler.

Variable PS : Type.
Variable chat_completions_create : chat_request -> PS -> attempt_outcome * PS.
Variable generateContent : gemini_json_request -> PS -> attempt_outcome * PS.

(** [analyzeWithOpenAI(client, screenshotBase64, analysisType, url, model)]:
    one call, its reply parsed. *)
Definition analyzeWithOpenAI (screenshotBase64 analysisType url : string)
    (model : option string) (w : world PS) : completion value * world PS :=
  match prompt analysisType with
  | Throw e => (Throw e, w)
  | Normal p =>
      let req :=
        mkChatRequest
          (match model with Some m => m | None => "gpt-4o" end)
          [ Interp p; Lit (nl ++ nl ++ OUTPUT_SCHEMA) ]
          ("Analyze this " ++ analysisType ++ " audit for: " ++ url)
          ("data:image/png;base64," ++ screenshotBase64)
          "json_object"
          1500 in
      let (o, s) := chat_completions_create req (provider_state w) in
      (parsed o, mkWorld s (trace w ++ [EvCreate req]))
  end.

(** [analyzeWithGemini(client, screenshotBase64, analysisType, url)] *)
Definition analyzeWithGemini (screenshotBase64 analysisType url : string)
    (w : world PS) : completion value * world PS :=
  match prompt analysisType with
  | Throw e => (Throw e, w)
  | Normal p =>
      let req :=
        mkGeminiJsonRequest
          (mkGeminiRequest
             "gemini-1.5-flash"
             [ Interp p;
               Lit (nl ++ nl ++ "Analyze this " ++ analysisType
                    ++ " audit for: " ++ url ++ nl ++ nl ++ OUTPUT_SCHEMA) ]
             screenshotBase64
             "image/png")
          "application/json" in
      let (o, s) := generateContent req (provider_state w) in
      (parsed o, mkWorld s (trace w ++ [EvGenerate (base_request req)]))
  end.

(** The record pushed when the inner or outer [try] of the handler
    fails. *)
Definition failed_record (settings : run_settings) (page : page_visit)
    (error : js_error) : value :=
  VObj [ ("url", VStr (visit_url page));
         ("status", VStr "FAILED");
         ("error", message_value error);
         ("audit_date", VStr (visit_clock page));
         ("analysis_type", VStr (run_analysisType settings));
         ("viewport", VStr (run_viewPort settings)) ].

(** [requestHandler({ request, page, log })] *)
Definition requestHandler (settings : run_settings) (page : page_visit)
    (st : run_state PS) : run_state PS :=
  if run_isFreeMode settings && negb (canProcess (st_tracker st)) then
    pushData
      (VObj [ ("url", VStr (visit_url page));
              ("status", VStr "LIMIT_REACHED");
              ("message", VStr ("Free tier limit reached ("
                 ++ decimal FREE_TIER_DAILY_LIMIT
                 ++ " audits per day). Please provide your own API key for unlimited audits."));
              ("audit_date", VStr (visit_clock page)) ])
      st
  else
    match visit_capture page with
    | Throw error => pushData (failed_record settings page error) st
    | Normal (screenshotBase64, screenshotUrl) =>
        let aiProvider := run_provider settings in
        let (aiResult, w1) :=
          if (type aiProvider =? "openai") || (type aiProvider =? "openrouter")
          then analyzeWithOpenAI screenshotBase64 (run_analysisType settings)
                 (visit_url page) (model aiProvider) (st_world st)
          else analyzeWithGemini screenshotBase64 (run_analysisType settings)
                 (visit_url page) (st_world st) in
        match aiResult with
        | Throw apiError =>
            pushData (failed_record settings page (surfaced apiError))
              (mkState w1 (st_tracker st) (st_dataset st))
        | Normal aiResult =>
            let tracker :=
              if run_isFreeMode settings then increment (st_tracker st)
              else st_tracker st in
            let st1 := mkState w1 tracker (st_dataset st) in
            match auditResult
                    (mkContext (visit_url page) (visit_clock page)
                       (run_analysisType settings) (run_viewPort settings)
                       aiProvider screenshotUrl (run_isFreeMode settings) tracker)
                    aiResult with
            | Normal record => pushData record st1
            | Throw error => pushData (failed_record settings page error) st1
            end
        end
    end.


End Handler.

End FreeTier.

(** ** Reading records and scripting providers *)

(** The own property [key] of a record, if it has one. *)
Definition field (record : value) (key : string) : option value :=
  match record with
  | VObj props => own_prop props key
  | _ => None
  end.

(** The own property names of a record, in insertion order. *)
Definition keys (record : value) : list string :=
  match record with
  | VObj props => map fst props
  | _ => []
  end.

(** The six properties of the structured-output contract. *)
Definition contract_keys : list string :=
  [ "score"; "summary"; "color_palette"; "design_flaws";
    "positive_aspects"; "recommendations" ].

(** A simulated provider: it answers the calls of one invocation from a
    script, one entry per call, and fails once the script is used up. *)
Definition scripted {R : Type} (req : R) (script : list attempt_outcome)
  : attempt_outcome * list attempt_outcome :=
  match script with
  | [] => (CallThrows (mkError "Error" (Some "script exhausted")), [])
  | o :: rest => (o, rest)
  end.

(** Number of provider calls recorded in a trace. *)
Definition provider_calls (t : list event) : nat :=
  length (filter (fun e => match e with EvSleep _ => false | _ => true end) t).

(** The backoff sleeps recorded in a trace, in order. *)
Definition sleeps (t : list event) : list Z :=
  flat_map (fun e => match e with EvSleep ms => [ms] | _ => [] end) t.

(** The instruction selected for each defined category. *)
Definition instructions : list (string * string) :=
  [ ("general", ANALYSIS_PROMPTS_general);
    ("accessibility", ANALYSIS_PROMPTS_accessibility);
    ("conversion", ANALYSIS_PROMPTS_conversion);
    ("performance", ANALYSIS_PROMPTS_performance);
    ("seo", ANALYSIS_PROMPTS_seo);
    ("mobile-first", ANALYSIS_PROMPTS_mobile_first);
    ("brand-consistency", ANALYSIS_PROMPTS_brand_consistency) ].

(** The default that replaces each contract property when its value is
    falsy, as written in the [auditResult] literals. *)
Definition defaults : list (string * value) :=
  [ ("score", VNum 0);
    ("summary", VStr "No summary available");
    ("color_palette", VArr []);
    ("design_flaws", VArr []);
    ("positive_aspects", VArr []);
    ("recommendations", VArr []) ].

(** The name under which the comprehensive record of the retrying
    revision stores each contract property. *)
Definition persisted_as : list (string * string) :=
  [ ("score", "overall_score");
    ("summary", "ai_summary");
    ("color_palette", "color_palette");
    ("design_flaws", "design_flaws");
    ("positive_aspects", "positive_aspects");
    ("recommendations", "ai_recommendations") ].

(** [undefined] or [null] *)
Definition is_nullish (v : value) : bool :=
  match v with
  | VUndefined | VNull => true
  | _ => false
  end.

(** Total time asked of [setTimeout] in a trace, in milliseconds. *)
Definition total_backoff (t : list event) : Z :=
  fold_right Z.add 0%Z (sleeps t).

(** Every event of the chat-completion loop is a call carrying the one
    request built before the loop, or a sleep. *)
Definition chat_event (req : chat_request) (e : event) : Prop :=
  e = EvCreate req \/ exists ms, e = EvSleep ms.

(** Number of records of a dataset that carry no [status], that is, of
    completed audits. *)
Definition completed (dataset : list value) : nat :=
  length (filter (fun r => match field r "status" with
                           | None => true
                           | Some _ => false
                           end) dataset).

(** ** The dashboard generator *)

Module Dashboard.

(** [getScoreClass(score)] for a number. *)
Definition getScoreClass (score : Q) : string :=
  if Qle_bool 8 score then "excellent"
  else if Qle_bool 6 score then "good"
  else if Qle_bool 4 score then "average"
  else "poor".

(** [v === literal] for a string literal. *)
Definition is_string (v : value) (literal : string) : bool :=
  match v with
  | VStr s => s =? literal
  | _ => false
  end.

(** The filter of [generateDashboard]:
    [r => !r._type || r._type !== 'flattened_report']. *)
Definition shown (r : value) : completion bool :=
  _type <- get_prop r "_type" ;;
  if negb (truthy _type) then Normal true
  else
    _type <- get_prop r "_type" ;;
    Normal (negb (is_string _type "flattened_report")).

(** [auditResults.filter(...)], the records that get a card. *)
Fixpoint results (auditResults : list value) : completion (list value) :=
  match auditResults with
  | [] => Normal []
  | r :: rest =>
      keep <- shown r ;;
      kept <- results rest ;;
      Normal (if keep then r :: kept else kept)
  end.

(** [result.overall_score || result.scores?.overall_ux || 0], the first
    line of [generateAuditCard]. *)
Definition overallScore (result : value) : completion value :=
  overall_score <- get_prop result "overall_score" ;;
  if truthy overall_score then Normal overall_score
  else
    scores <- get_prop result "scores" ;;
    overall_ux <-
      (if is_nullish scores then Normal VUndefined
       else get_prop scores "overall_ux") ;;
    Normal (js_or overall_ux (VNum 0)).

(** The replacement [s => div[s]] of [escapeHtml] for one character. *)
Definition escape_char (c : ascii) : string :=
  if Ascii.eqb c "&" then "&amp;"
  else if Ascii.eqb c "<" then "&lt;"
  else if Ascii.eqb c ">" then "&gt;"
  else if Ascii.eqb c "034" then "&quot;"
  else if Ascii.eqb c "'" then "&#039;"
  else String c "".

(** [escapeHtml(text)] for a string: the empty string is returned as it
    is, otherwise each ampersand, angle bracket, double quote and
    apostrophe is replaced by its entity. *)
Fixpoint escapeHtml (text : string) : string :=
  match text with
  | EmptyString => ""
  | String c rest => escape_char c ++ escapeHtml rest
  end.

End Dashboard.

(** ** The build verification script *)

Module VerifyBuild.

Definition requiredVersion : string := "v20.0.0".

(** [nodeVersion < requiredVersion], the test that makes the script
    exit: a comparison of two strings. *)
Definition rejected (nodeVersion : string) : bool :=
  String.ltb nodeVersion requiredVersion.

End VerifyBuild.

(** The characters of a string. *)
Fixpoint characters (s : string) : list ascii :=
  match s with
  | EmptyString => []
  | String c rest => c :: characters rest
  end.

(** The four characters that could open or close markup or an attribute
    value. *)
Definition markup_char (c : ascii) : bool :=
  Ascii.eqb c "<" || Ascii.eqb c ">" || Ascii.eqb c "034" || Ascii.eqb c "'".

(** Order of the score classes, worst first. *)
Definition class_rank (class : string) : nat :=
  if class =? "excellent" then 3
  else if class =? "good" then 2
  else if class =? "average" then 1
  else 0.

(** The four list properties of the contract. *)
Definition list_keys : list string :=
  [ "color_palette"; "design_flaws"; "positive_aspects"; "recommendations" ].

(** A value that [(v || []).join(...)] accepts: falsy, or an array whose
    elements convert to strings. *)
Definition joinable (v : value) : bool := negb (truthy v) || Retrying.joins v.

(** Whether each list property of a reply object is absent or joinable. *)
Definition lists_joinable (props : list (string * value)) : bool :=
  forallb (fun k => match own_prop props k with
                    | Some v => joinable v
                    | None => true
                    end) list_keys.


(** *** Sample data *)

Definition rate_limit_429 : js_error :=
  mkError "RateLimitError" (Some "429 Too Many Requests").

Definition rate_limit_text : js_error :=
  mkError "Error" (Some "Provider returned error: rate limit exceeded").

Definition unauthorized : js_error :=
  mkError "AuthenticationError" (Some "401 Incorrect API key provided").

(** The reply of the end-to-end scenario. *)
Definition good_reply : value :=
  VObj [ ("score", VNum 8);
         ("summary", VStr "Good structure");
         ("color_palette", VArr [VStr "#FFFFFF"]);
         ("design_flaws", VArr []);
         ("positive_aspects", VArr [VStr "Clear headings"]);
         ("recommendations", VArr [VStr "Add meta description"]) ].

Definition sample_chat_request : chat_request :=
  Retrying.chat_request_of (VStr ANALYSIS_PROMPTS_seo) "iVBORw0KGgo="
    "seo" "https://example.com" (Some "gpt-4o").

Definition sample_flat_context : FreeTier.page_context :=
  FreeTier.mkContext "https://example.com" "2025-12-10T16:45:00.000Z"
    "seo" "desktop"
    (mkHandle "gemini" (GoogleGenerativeAI "AIza_test_key") None)
    "https://api.apify.com/v2/key-value-stores/kv1/records/SCREENSHOT_r1.png"
    false (FreeTier.mkTracker 0 FreeTier.FREE_TIER_DAILY_LIMIT).

Definition sample_comprehensive_context : Retrying.page_context :=
  Retrying.mkContext "https://example.com" "2025-12-10T16:45:00.000Z"
    "seo" "desktop"
    (mkHandle "gemini" (GoogleGenerativeAI "AIza_test_key") None)
    [ ("frontend_framework", VNull); ("analytics", VArr []) ]
    [ ("performance_score", VNum 85) ]
    [ ("accessibility_score", VNum 90) ]
    [ ("mobile_score", VNum 80) ]
    [ ("seo_score", VNum 75) ]
    [ ("content_score", VNum 70) ]
    [ ("conversion_score", VNum 65) ]
    "https://api.apify.com/v2/key-value-stores/kv1/records/SCREENSHOT_r1.png".

(** A reply that lacks [color_palette], [design_flaws] and
    [recommendations]. *)
Definition partial_reply : value :=
  VObj [ ("score", VNum 7);
         ("summary", VStr "Clean layout");
         ("positive_aspects", VArr [VStr "Clear headings"]) ].

(** The same reply with an empty summary. *)
Definition empty_summary_reply : value :=
  VObj [ ("score", VNum 7);
         ("summary", VStr "");
         ("positive_aspects", VArr [VStr "Clear headings"]) ].

(** A reply whose properties are all present and falsy or empty. *)
Definition falsy_reply : value :=
  VObj [ ("score", VNum 0);
         ("summary", VStr "");
         ("color_palette", VArr []);
         ("design_flaws", VArr []);
         ("positive_aspects", VArr []);
         ("recommendations", VArr []) ].

(** Sample pages and settings of a free-mode run. *)
Definition sample_settings : FreeTier.run_settings :=
  FreeTier.mkSettings
    (mkHandle "openrouter"
       (OpenAI "built-in" (Some "https://openrouter.ai/api/v1")
          [ ("HTTP-Referer", "https://apify.com/");
            ("X-Title", "Apify UI/UX Auditor") ])
       (Some "google/gemini-2.0-flash-exp:free"))
    "seo" "desktop" true.

Definition sample_page : FreeTier.page_visit :=
  FreeTier.mkVisit "https://example.com" "2025-12-10T16:45:00.000Z"
    (Normal ("iVBORw0KGgo=",
             "https://api.apify.com/v2/key-value-stores/kv1/records/SCREENSHOT_r1.png")).

(** A run that has used four of its five audits and faces a provider
    that answers twice with the sample reply. *)
Definition sample_run_state : FreeTier.run_state (list attempt_outcome) :=
  FreeTier.mkState
    (mkWorld [ContentParses good_reply; ContentParses good_reply] [])
    (FreeTier.mkTracker 4 FreeTier.FREE_TIER_DAILY_LIMIT)
    [].

(** Half-up rounding of the percentage on exact quotients, used for the
    sample context only. *)
Definition sample_rounding (withAlt total : Z) : Z :=
  ((200 * withAlt + total) / (2 * total))%Z.

(** A page context whose metric objects come from the analyzers. *)
Definition analyzed_context : Retrying.page_context :=
  Retrying.mkContext "https://example.com" "2025-12-10T16:45:00.000Z"
    "seo" "desktop"
    (mkHandle "gemini" (GoogleGenerativeAI "AIza_test_key") None)
    [ ("frontend_framework", VNull); ("analytics", VArr []) ]
    (Retrying.analyzePerformance
       (Normal (Retrying.mkPerfData 60 3 10 1 4 25 12)))
    (Retrying.analyzeAccessibility
       (Normal (Retrying.mkA11yData 2 ["H1"; "H2"] 0 14 3)))
    (Retrying.analyzeMobileResponsiveness
       (Throw (mkError "Error" (Some "page.evaluate: Target closed"))))
    (Retrying.analyzeSEO sample_rounding
       (Normal (Retrying.mkSeoData (Some "Example Domain") None
                  ["Example Domain"] [] false 1 2)))
    (Retrying.analyzeContent
       (Normal (Retrying.mkContentData ["Example"; "Domain"] 2 1 0 [])))
    (Retrying.analyzeConversion
       (Normal (Retrying.mkConversionPage 3 1 false true false false
                  "sign up today only" 7 true false)))
    "https://api.apify.com/v2/key-value-stores/kv1/records/SCREENSHOT_r1.png".

(** * Properties *)

(** ** Provider resolver *)

Lemma prefix_app_l (p q s : string) :
  String.prefix (p ++ q) s = true -> String.prefix p s = true.
Proof.
  revert s; induction p as [|c p IH]; intros s H.
  - destruct s; reflexivity.
  - destruct s as [|d s]; simpl in *; [discriminate|].
    destruct (ascii_dec c d); [auto | discriminate].
Qed.

Lemma startsWith_nonempty (s p : string) :
  p <> "" -> startsWith s p = true -> truthy (VStr s) = true.
Proof.
  intros Hp H. destruct s as [|c s]; [|reflexivity].
  destruct p; [congruence | discriminate].
Qed.

(** C2: a credential that starts with "sk-or-" (and therefore also with
    "sk-") is resolved to a handle of the OpenRouter kind, never to the
    generic OpenAI kind: the specific prefix is tested first. *)
Theorem openrouter_prefix_tested_first (apiKey : string) :
  startsWith apiKey "sk-or-" = true ->
  startsWith apiKey "sk-" = true /\
  exists h, Retrying.initializeAIProvider apiKey = Normal h /\
            type h = "openrouter" /\ type h <> "openai".
Proof.
  intros H. split.
  - apply (prefix_app_l "sk-" "or-"). exact H.
  - unfold Retrying.initializeAIProvider.
    rewrite (startsWith_nonempty apiKey "sk-or-") by (discriminate || assumption).
    simpl negb. cbv iota. rewrite H.
    eexists; repeat split; simpl; discriminate.
Qed.

Lemma openrouter_prefix_tested_first_witness :
  startsWith "sk-or-v1-abc" "sk-" = true /\
  exists h, Retrying.initializeAIProvider "sk-or-v1-abc" = Normal h /\
            type h = "openrouter" /\ type h <> "openai".
Proof.
  apply (openrouter_prefix_tested_first "sk-or-v1-abc"). reflexivity.
Defined.

(** C3: a non-empty credential that starts with none of "sk-or-", "sk-",
    "AIza" makes [initializeAIProvider] throw the invalid-format error; no
    handle is returned. *)
Theorem unrecognized_prefix_rejected (apiKey : string) :
  apiKey <> "" ->
  startsWith apiKey "sk-or-" = false ->
  startsWith apiKey "sk-" = false ->
  startsWith apiKey "AIza" = false ->
  Retrying.initializeAIProvider apiKey =
    Throw (mkError "Error" (Some
      "Invalid API key format. Please provide a valid OpenAI (sk-...), OpenRouter (sk-or-...), or Gemini (AIza...) API key."))
  /\ forall h, Retrying.initializeAIProvider apiKey <> Normal h.
Proof.
  intros Hne H1 H2 H3.
  assert (E : Retrying.initializeAIProvider apiKey =
    Throw (mkError "Error" (Some
      "Invalid API key format. Please provide a valid OpenAI (sk-...), OpenRouter (sk-or-...), or Gemini (AIza...) API key."))).
  { unfold Retrying.initializeAIProvider.
    destruct apiKey as [|c rest]; [congruence|].
    change (truthy (VStr (String c rest))) with true. simpl negb. cbv iota.
    rewrite H1, H2, H3. reflexivity. }
  split; [exact E|]. intros h Hh. rewrite E in Hh. discriminate.
Qed.

Lemma unrecognized_prefix_rejected_witness :
  Retrying.initializeAIProvider "pk-12345" =
    Throw (mkError "Error" (Some
      "Invalid API key format. Please provide a valid OpenAI (sk-...), OpenRouter (sk-or-...), or Gemini (AIza...) API key."))
  /\ forall h, Retrying.initializeAIProvider "pk-12345" <> Normal h.
Proof.
  apply (unrecognized_prefix_rejected "pk-12345");
    [discriminate | reflexivity | reflexivity | reflexivity].
Defined.

(** C9 as stated fails: the handle built for an "AIza" credential has no
    [model] property. *)
Lemma gemini_handle_has_no_model :
  Retrying.initializeAIProvider "AIza_test_key" =
    Normal (mkHandle "gemini" (GoogleGenerativeAI "AIza_test_key") None)
  /\ ~ (forall apiKey h, Retrying.initializeAIProvider apiKey = Normal h ->
         exists m, model h = Some m).
Proof.
  split; [reflexivity|].
  intros H. destruct (H "AIza_test_key" _ eq_refl) as [m Hm]. discriminate.
Qed.

(** C9 (amended): every handle returned carries a kind consistent with the
    detected prefix and a client built from the credential; the OpenRouter
    and OpenAI handles carry their fixed model identifier, the Gemini
    handle carries none. *)
Theorem handle_consistent_with_prefix (apiKey : string) (h : ProviderHandle) :
  Retrying.initializeAIProvider apiKey = Normal h ->
  (startsWith apiKey "sk-or-" = true /\
   type h = "openrouter" /\ model h = Some "openai/gpt-4o-mini" /\
   exists hdrs, handle_client h =
     OpenAI apiKey (Some "https://openrouter.ai/api/v1") hdrs)
  \/
  (startsWith apiKey "sk-or-" = false /\ startsWith apiKey "sk-" = true /\
   type h = "openai" /\ model h = Some "gpt-4o" /\
   handle_client h = OpenAI apiKey None [])
  \/
  (startsWith apiKey "sk-" = false /\ startsWith apiKey "AIza" = true /\
   type h = "gemini" /\ model h = None /\
   handle_client h = GoogleGenerativeAI apiKey).
Proof.
  unfold Retrying.initializeAIProvider.
  destruct (negb (truthy (VStr apiKey))); [discriminate|].
  destruct (startsWith apiKey "sk-or-") eqn:H1.
  { intros [= <-]. left. simpl. eauto. }
  destruct (startsWith apiKey "sk-") eqn:H2.
  { intros [= <-]. right; left. simpl. auto. }
  destruct (startsWith apiKey "AIza") eqn:H3.
  { intros [= <-]. right; right. simpl. auto. }
  discriminate.
Qed.

Lemma handle_consistent_with_prefix_witness :
  (startsWith "AIza_test_key" "sk-or-" = true /\
   type (mkHandle "gemini" (GoogleGenerativeAI "AIza_test_key") None)
     = "openrouter" /\
   model (mkHandle "gemini" (GoogleGenerativeAI "AIza_test_key") None)
     = Some "openai/gpt-4o-mini" /\
   exists hdrs,
     handle_client (mkHandle "gemini" (GoogleGenerativeAI "AIza_test_key") None)
     = OpenAI "AIza_test_key" (Some "https://openrouter.ai/api/v1") hdrs)
  \/
  (startsWith "AIza_test_key" "sk-or-" = false /\
   startsWith "AIza_test_key" "sk-" = true /\
   type (mkHandle "gemini" (GoogleGenerativeAI "AIza_test_key") None)
     = "openai" /\
   model (mkHandle "gemini" (GoogleGenerativeAI "AIza_test_key") None)
     = Some "gpt-4o" /\
   handle_client (mkHandle "gemini" (GoogleGenerativeAI "AIza_test_key") None)
     = OpenAI "AIza_test_key" None [])
  \/
  (startsWith "AIza_test_key" "sk-" = false /\
   startsWith "AIza_test_key" "AIza" = true /\
   type (mkHandle "gemini" (GoogleGenerativeAI "AIza_test_key") None)
     = "gemini" /\
   model (mkHandle "gemini" (GoogleGenerativeAI "AIza_test_key") None)
     = None /\
   handle_client (mkHandle "gemini" (GoogleGenerativeAI "AIza_test_key") None)
     = GoogleGenerativeAI "AIza_test_key").
Proof.
  apply (handle_consistent_with_prefix "AIza_test_key"). reflexivity.
Defined.

(** ** Prompt selection *)

Lemma inherited_unknown (key : string) :
  ~ In key Object_prototype_keys -> inherited key = VUndefined.
Proof.
  intros H. unfold inherited.
  destruct (existsb (String.eqb key) Object_prototype_keys) eqn:E; [|reflexivity].
  apply existsb_exists in E. destruct E as [k [Hk Heq]].
  apply String.eqb_eq in Heq. subst. contradiction.
Qed.

Lemma own_prop_unknown (key : string) :
  ~ In key categories ->
  own_prop
    [ ("general", VStr ANALYSIS_PROMPTS_general);
      ("accessibility", VStr ANALYSIS_PROMPTS_accessibility);
      ("conversion", VStr ANALYSIS_PROMPTS_conversion);
      ("performance", VStr ANALYSIS_PROMPTS_performance);
      ("seo", VStr ANALYSIS_PROMPTS_seo);
      ("mobile-first", VStr ANALYSIS_PROMPTS_mobile_first);
      ("brand-consistency", VStr ANALYSIS_PROMPTS_brand_consistency) ] key
  = None.
Proof.
  intros H. unfold own_prop.
  repeat match goal with
  | |- context [String.eqb ?k key] =>
      destruct (String.eqb_spec k key) as [<-|_];
      [exfalso; apply H; simpl; tauto|]
  end.
  reflexivity.
Qed.

(** A tag that is neither one of the seven categories nor the name of a
    member inherited from [Object.prototype] selects the "general"
    instruction. *)
Lemma prompt_unknown_tag (tag : string) :
  ~ In tag categories -> ~ In tag Object_prototype_keys ->
  prompt tag = Normal (VStr ANALYSIS_PROMPTS_general) /\
  prompt tag = prompt "general".
Proof.
  intros Hc Hp.
  assert (E : prompt tag = Normal (VStr ANALYSIS_PROMPTS_general)).
  { unfold prompt, ANALYSIS_PROMPTS, get_prop at 1.
    rewrite (own_prop_unknown tag Hc), (inherited_unknown tag Hp).
    reflexivity. }
  split; [exact E | rewrite E; reflexivity].
Qed.

(** Each of the seven categories selects its own fixed instruction; the
    seven instructions are non-empty and pairwise distinct. *)
Lemma prompt_defined_categories :
  map fst instructions = categories /\
  (forall c text, In (c, text) instructions ->
     prompt c = Normal (VStr text) /\ text <> "") /\
  NoDup (map snd instructions).
Proof.
  split; [reflexivity|]. split.
  - intros c text H. simpl in H.
    repeat (destruct H as [[= <- <-]|H]; [split; [reflexivity|discriminate]|]).
    contradiction.
  - simpl. repeat constructor; simpl; intuition discriminate.
Qed.

(** C8 fails on the code at a tag that names an inherited member: the
    lookup [ANALYSIS_PROMPTS["constructor"]] yields the inherited function
    object, which is truthy, so the fallback to the "general" instruction
    is not taken. *)
Theorem prompt_inherited_member_not_general :
  ~ In "constructor" categories /\
  prompt "constructor" = Normal (VBuiltin "constructor") /\
  prompt "general" = Normal (VStr ANALYSIS_PROMPTS_general) /\
  prompt "constructor" <> prompt "general".
Proof.
  split; [|split; [reflexivity|split; [reflexivity|discriminate]]].
  simpl. intuition discriminate.
Qed.

(** ** Analysis invoker: retry and backoff *)

Lemma prompt_total (tag : string) : exists p, prompt tag = Normal p.
Proof.
  unfold prompt, ANALYSIS_PROMPTS, get_prop.
  destruct (own_prop _ tag); simpl; eauto.
Qed.

Lemma rate_limit_has_message (e : js_error) :
  Retrying.is_rate_limit e = true ->
  exists m, message e = Some m /\
            (includes m "429" = true \/ includes m "rate limit" = true).
Proof.
  unfold Retrying.is_rate_limit. destruct (message e) as [m|]; [|discriminate].
  intros H. apply orb_true_iff in H. eauto.
Qed.

Section RetryLoop.

Variable PS : Type.
Variable create : chat_request -> PS -> attempt_outcome * PS.

(** One iteration whose [try] body completes returns its value. *)
Lemma attempt_returns later lastError req s s' t o v :
  create req s = (o, s') -> parsed o = Normal v ->
  Retrying.attempts PS create (S later) lastError req (mkWorld s t)
  = (Normal v, mkWorld s' (t ++ [EvCreate req])).
Proof.
  intros Hc Hp. simpl.
  unfold Retrying.call_create. simpl. rewrite Hc, Hp. reflexivity.
Qed.

(** One iteration that catches an error not classified as a rate limit
    rethrows it: nothing is slept and no further call is made. *)
Lemma attempt_rethrows later lastError req s s' t o e :
  create req s = (o, s') -> parsed o = Throw e ->
  Retrying.is_rate_limit e = false ->
  Retrying.attempts PS create (S later) lastError req (mkWorld s t)
  = (Throw e, mkWorld s' (t ++ [EvCreate req])).
Proof.
  intros Hc Hp Hr. simpl.
  unfold Retrying.call_create. simpl. rewrite Hc, Hp, Hr. reflexivity.
Qed.

(** One iteration that catches a rate-limit error sleeps
    [2 ^ attempt * 1000] ms and goes on with the next one. *)
Lemma attempt_backs_off later lastError req s s' t o e :
  create req s = (o, s') -> parsed o = Throw e ->
  Retrying.is_rate_limit e = true ->
  Retrying.attempts PS create (S later) lastError req (mkWorld s t)
  = Retrying.attempts PS create later (Some e) req
      (mkWorld s'
         (t ++ [EvCreate req;
                EvSleep (2 ^ (Z.of_nat Retrying.maxRetries - Z.of_nat later) * 1000)])).
Proof.
  intros Hc Hp Hr. simpl.
  unfold Retrying.call_create. simpl. rewrite Hc, Hp, Hr.
  unfold sleep, emit. simpl. rewrite <- app_assoc. reflexivity.
Qed.

(** The loop makes at most [remaining] provider calls. *)
Lemma attempts_bounded remaining :
  forall lastError req w,
    (provider_calls
       (trace (snd (Retrying.attempts PS create remaining lastError req w)))
     <= provider_calls (trace w) + remaining)%nat.
Proof.
  induction remaining as [|later IH]; intros lastError req [s t].
  - simpl. lia.
  - destruct (create req s) as [o s'] eqn:Hc.
    destruct (parsed o) as [v|e] eqn:Hp.
    + rewrite (attempt_returns _ _ _ _ _ _ _ _ Hc Hp). simpl.
      unfold provider_calls. rewrite filter_app, length_app. simpl. lia.
    + destruct (Retrying.is_rate_limit e) eqn:Hr.
      * rewrite (attempt_backs_off _ _ _ _ _ _ _ _ Hc Hp Hr).
        etransitivity; [apply IH|]. simpl.
        unfold provider_calls. rewrite filter_app, length_app. simpl. lia.
      * rewrite (attempt_rethrows _ _ _ _ _ _ _ _ Hc Hp Hr). simpl.
        unfold provider_calls. rewrite filter_app, length_app. simpl. lia.
Qed.

End RetryLoop.

(** C1: [analyzeWithOpenAI] makes at most 3 provider calls; a rate-limit
    error (message containing "429" or "rate limit") is followed by a
    sleep of [2 ^ attempt] seconds and another attempt, so two rate limits
    followed by a good reply give that reply on the third call after
    sleeps of 2 s and 4 s; an error not classified as a rate limit is
    rethrown at once, at whichever attempt it occurs, with no sleep and no
    further call; three rate limits in a row end in an error whose message
    wraps the message of the last one. *)
Theorem chat_completion_retry_policy
    (PS : Type) (create : chat_request -> PS -> attempt_outcome * PS)
    (screenshotBase64 analysisType url : string) (model : option string)
    (s0 : PS) (p : value) :
  prompt analysisType = Normal p ->
  let req := Retrying.chat_request_of p screenshotBase64 analysisType url model in
  let run := Retrying.analyzeWithOpenAI PS create screenshotBase64 analysisType
               url model (mkWorld s0 []) in
  (provider_calls (trace (snd run)) <= 3)%nat
  /\
  (forall o1 s1 e1 o2 s2 e2 o3 s3 v,
     create req s0 = (o1, s1) -> parsed o1 = Throw e1 ->
     Retrying.is_rate_limit e1 = true ->
     create req s1 = (o2, s2) -> parsed o2 = Throw e2 ->
     Retrying.is_rate_limit e2 = true ->
     create req s2 = (o3, s3) -> parsed o3 = Normal v ->
     run = (Normal v,
            mkWorld s3 [EvCreate req; EvSleep 2000; EvCreate req;
                        EvSleep 4000; EvCreate req]))
  /\
  (forall o1 s1 e,
     create req s0 = (o1, s1) -> parsed o1 = Throw e ->
     Retrying.is_rate_limit e = false ->
     run = (Throw e, mkWorld s1 [EvCreate req]))
  /\
  (forall later lastError s s' t o e,
     create req s = (o, s') -> parsed o = Throw e ->
     Retrying.is_rate_limit e = false ->
     Retrying.attempts PS create (S later) lastError req (mkWorld s t)
     = (Throw e, mkWorld s' (t ++ [EvCreate req])))
  /\
  (forall o1 s1 e1 o2 s2 e2 o3 s3 e3,
     create req s0 = (o1, s1) -> parsed o1 = Throw e1 ->
     Retrying.is_rate_limit e1 = true ->
     create req s1 = (o2, s2) -> parsed o2 = Throw e2 ->
     Retrying.is_rate_limit e2 = true ->
     create req s2 = (o3, s3) -> parsed o3 = Throw e3 ->
     Retrying.is_rate_limit e3 = true ->
     exists m3, message e3 = Some m3 /\
       run = (Throw (mkError "Error" (Some
                ("API failed after 3 attempts. Last error: " ++ m3))),
              mkWorld s3 [EvCreate req; EvSleep 2000; EvCreate req;
                          EvSleep 4000; EvCreate req; EvSleep 8000])).
Proof.
  intros Hp req run.
  assert (Hrun : run = Retrying.attempts PS create 3 None req (mkWorld s0 [])).
  { unfold run, Retrying.analyzeWithOpenAI. rewrite Hp. reflexivity. }
  repeat split.
  - rewrite Hrun.
    apply (attempts_bounded PS create 3 None req (mkWorld s0 [])).
  - intros o1 s1 e1 o2 s2 e2 o3 s3 v C1 P1 R1 C2 P2 R2 C3 P3.
    rewrite Hrun.
    rewrite (attempt_backs_off _ _ _ _ _ _ _ _ _ _ C1 P1 R1).
    rewrite (attempt_backs_off _ _ _ _ _ _ _ _ _ _ C2 P2 R2).
    rewrite (attempt_returns _ _ _ _ _ _ _ _ _ _ C3 P3).
    reflexivity.
  - intros o1 s1 e C1 P1 R1. rewrite Hrun.
    rewrite (attempt_rethrows _ _ _ _ _ _ _ _ _ _ C1 P1 R1). reflexivity.
  - intros later lastError s s' t o e C P R.
    apply (attempt_rethrows _ _ _ _ _ _ _ _ _ _ C P R).
  - intros o1 s1 e1 o2 s2 e2 o3 s3 e3 C1 P1 R1 C2 P2 R2 C3 P3 R3.
    destruct (rate_limit_has_message e3 R3) as [m3 [Hm3 _]].
    exists m3. split; [exact Hm3|].
    rewrite Hrun.
    rewrite (attempt_backs_off _ _ _ _ _ _ _ _ _ _ C1 P1 R1).
    rewrite (attempt_backs_off _ _ _ _ _ _ _ _ _ _ C2 P2 R2).
    rewrite (attempt_backs_off _ _ _ _ _ _ _ _ _ _ C3 P3 R3).
    simpl. unfold Retrying.last_message. destruct e3 as [n3 msg3].
    simpl in Hm3. subst msg3. reflexivity.
Qed.

Lemma chat_completion_retry_policy_witness :
  prompt "seo" = Normal (VStr ANALYSIS_PROMPTS_seo) /\
  Retrying.analyzeWithOpenAI (list attempt_outcome) scripted
    "iVBORw0KGgo=" "seo" "https://example.com" (Some "gpt-4o")
    (mkWorld [CallThrows rate_limit_429; CallThrows rate_limit_text;
              ContentParses good_reply] [])
  = (Normal good_reply,
     mkWorld [] [EvCreate sample_chat_request; EvSleep 2000;
                 EvCreate sample_chat_request; EvSleep 4000;
                 EvCreate sample_chat_request])
  /\
  Retrying.analyzeWithOpenAI (list attempt_outcome) scripted
    "iVBORw0KGgo=" "seo" "https://example.com" (Some "gpt-4o")
    (mkWorld [CallThrows unauthorized; ContentParses good_reply] [])
  = (Throw unauthorized,
     mkWorld [ContentParses good_reply] [EvCreate sample_chat_request])
  /\
  exists m3, message rate_limit_429 = Some m3 /\
  Retrying.analyzeWithOpenAI (list attempt_outcome) scripted
    "iVBORw0KGgo=" "seo" "https://example.com" (Some "gpt-4o")
    (mkWorld [CallThrows rate_limit_text; CallThrows rate_limit_text;
              CallThrows rate_limit_429; ContentParses good_reply] [])
  = (Throw (mkError "Error" (Some
       ("API failed after 3 attempts. Last error: " ++ m3))),
     mkWorld [ContentParses good_reply]
       [EvCreate sample_chat_request; EvSleep 2000;
        EvCreate sample_chat_request; EvSleep 4000;
        EvCreate sample_chat_request; EvSleep 8000]).
Proof.
  split; [reflexivity|]. split; [|split].
  - pose proof (chat_completion_retry_policy (list attempt_outcome) scripted
      "iVBORw0KGgo=" "seo" "https://example.com" (Some "gpt-4o")
      [CallThrows rate_limit_429; CallThrows rate_limit_text;
       ContentParses good_reply] (VStr ANALYSIS_PROMPTS_seo) eq_refl) as H.
    cbv zeta in H. destruct H as (_ & H & _).
    eapply H; reflexivity.
  - pose proof (chat_completion_retry_policy (list attempt_outcome) scripted
      "iVBORw0KGgo=" "seo" "https://example.com" (Some "gpt-4o")
      [CallThrows unauthorized; ContentParses good_reply]
      (VStr ANALYSIS_PROMPTS_seo) eq_refl) as H.
    cbv zeta in H. destruct H as (_ & _ & H & _).
    eapply H; reflexivity.
  - pose proof (chat_completion_retry_policy (list attempt_outcome) scripted
      "iVBORw0KGgo=" "seo" "https://example.com" (Some "gpt-4o")
      [CallThrows rate_limit_text; CallThrows rate_limit_text;
       CallThrows rate_limit_429; ContentParses good_reply]
      (VStr ANALYSIS_PROMPTS_seo) eq_refl) as H.
    cbv zeta in H. destruct H as (_ & _ & _ & _ & H).
    eapply H; reflexivity.
Defined.

(** ** Analysis invoker: replies that do not parse *)

(** Native-vision shape: a reply that does not parse makes the call throw
    the SyntaxError after its single provider call. *)
Lemma gemini_unparsable_reply_throws
    (PS : Type) (generateContent : gemini_request -> PS -> attempt_outcome * PS)
    (screenshotBase64 analysisType url : string) (s0 s1 : PS) (p : value)
    (msg : string) :
  prompt analysisType = Normal p ->
  generateContent
    (Retrying.gemini_request_of p screenshotBase64 analysisType url) s0
    = (ContentUnparsable msg, s1) ->
  Retrying.analyzeWithGemini PS generateContent screenshotBase64 analysisType url
    (mkWorld s0 [])
  = (Throw (mkError "SyntaxError" (Some msg)),
     mkWorld s1
       [EvGenerate (Retrying.gemini_request_of p screenshotBase64 analysisType url)]).
Proof.
  intros Hp Hg. unfold Retrying.analyzeWithGemini, Retrying.call_generate.
  rewrite Hp. simpl. rewrite Hg. reflexivity.
Qed.

(** Chat-completion shape: a reply that does not parse makes the call
    throw the SyntaxError after one provider call, provided the parser's
    message contains neither "429" nor "rate limit". *)
Lemma chat_unparsable_reply_throws
    (PS : Type) (create : chat_request -> PS -> attempt_outcome * PS)
    (screenshotBase64 analysisType url : string) (model : option string)
    (s0 s1 : PS) (p : value) (msg : string) :
  prompt analysisType = Normal p ->
  create (Retrying.chat_request_of p screenshotBase64 analysisType url model) s0
    = (ContentUnparsable msg, s1) ->
  includes msg "429" = false -> includes msg "rate limit" = false ->
  Retrying.analyzeWithOpenAI PS create screenshotBase64 analysisType url model
    (mkWorld s0 [])
  = (Throw (mkError "SyntaxError" (Some msg)),
     mkWorld s1
       [EvCreate (Retrying.chat_request_of p screenshotBase64 analysisType url model)]).
Proof.
  intros Hp Hc H1 H2. unfold Retrying.analyzeWithOpenAI. rewrite Hp.
  apply (attempt_rethrows PS create 2 None _ s0 s1 [] _ _ Hc eq_refl).
  unfold Retrying.is_rate_limit. simpl. rewrite H1, H2. reflexivity.
Qed.

(** C4 fails on the code for the chat-completion shape: when the reply is
    cut inside a string literal at offset 429, the parser's message
    contains "429", the catch block takes it for a rate limit, sleeps 2 s
    and calls the provider a second time. *)
Theorem unparsable_reply_retried :
  parsed (ContentUnparsable "Unterminated string in JSON at position 429")
    = Throw (mkError "SyntaxError"
               (Some "Unterminated string in JSON at position 429"))
  /\
  Retrying.analyzeWithOpenAI (list attempt_outcome) scripted
    "iVBORw0KGgo=" "seo" "https://example.com" (Some "gpt-4o")
    (mkWorld [ContentUnparsable "Unterminated string in JSON at position 429";
              ContentParses good_reply] [])
  = (Normal good_reply,
     mkWorld [] [EvCreate sample_chat_request; EvSleep 2000;
                 EvCreate sample_chat_request])
  /\
  provider_calls
    (trace (snd
      (Retrying.analyzeWithOpenAI (list attempt_outcome) scripted
         "iVBORw0KGgo=" "seo" "https://example.com" (Some "gpt-4o")
         (mkWorld [ContentUnparsable "Unterminated string in JSON at position 429";
                   ContentParses good_reply] [])))) = 2%nat.
Proof.
  repeat split.
Qed.

(** ** Normalization of the parsed reply *)

Lemma get_prop_total (v : value) (key : string) :
  is_nullish v = false -> exists raw, get_prop v key = Normal raw.
Proof.
  destruct v; simpl; try discriminate; eauto.
  destruct (own_prop props key); eauto.
Qed.

Lemma get_prop_own (props : list (string * value)) (key : string) (v : value) :
  own_prop props key = Some v -> get_prop (VObj props) key = Normal v.
Proof. intros H. simpl. rewrite H. reflexivity. Qed.

Lemma get_prop_object (props : list (string * value)) (key : string) :
  get_prop (VObj props) key = Normal (prop props key).
Proof. unfold get_prop, prop. destruct (own_prop props key); reflexivity. Qed.

(** None of the contract properties is a member of [Object.prototype]:
    a reply object that lacks one reads as [undefined] there. *)
Lemma get_prop_absent (props : list (string * value)) (key : string) :
  In key contract_keys -> own_prop props key = None ->
  get_prop (VObj props) key = Normal VUndefined.
Proof.
  intros Hin H. simpl. rewrite H. simpl in Hin.
  repeat (destruct Hin as [<-|Hin]; [reflexivity|]). contradiction.
Qed.

Lemma js_or_truthy (v d : value) : truthy v = true -> js_or v d = v.
Proof. unfold js_or. intros ->. reflexivity. Qed.

Lemma js_or_falsy (v d : value) : truthy v = false -> js_or v d = d.
Proof. unfold js_or. intros ->. reflexivity. Qed.

(** The flat record: built for every reply that is not nullish, with each
    contract property stored under its own name as [raw || default]. *)
Lemma flat_record_fields (ctx : FreeTier.page_context) (ai : value) :
  is_nullish ai = false ->
  exists r, FreeTier.auditResult ctx ai = Normal r /\
    keys r =
      [ "url"; "audit_date"; "analysis_type"; "viewport"; "ai_provider";
        "score"; "summary"; "color_palette"; "design_flaws";
        "positive_aspects"; "recommendations";
        "screenshot_url"; "free_tier_remaining" ] /\
    forall k d, In (k, d) defaults ->
      exists raw, get_prop ai k = Normal raw /\ field r k = Some (js_or raw d).
Proof.
  intros Hn. unfold FreeTier.auditResult.
  destruct (get_prop_total ai "score" Hn) as [r1 E1].
  destruct (get_prop_total ai "summary" Hn) as [r2 E2].
  destruct (get_prop_total ai "color_palette" Hn) as [r3 E3].
  destruct (get_prop_total ai "design_flaws" Hn) as [r4 E4].
  destruct (get_prop_total ai "positive_aspects" Hn) as [r5 E5].
  destruct (get_prop_total ai "recommendations" Hn) as [r6 E6].
  rewrite E1, E2, E3, E4, E5, E6. simpl.
  eexists. split; [reflexivity|]. split; [reflexivity|].
  intros k d H. simpl in H.
  repeat (destruct H as [H|H];
          [injection H as <- <-; eexists; split; [eassumption|reflexivity]|]).
  contradiction.
Qed.

(** The comprehensive record: built for every reply that is not nullish,
    with each contract property stored under its [persisted_as] name as
    [raw || default], and the score once more under [scores.overall_ux]. *)
Lemma comprehensive_record_fields (ctx : Retrying.page_context) (ai : value) :
  is_nullish ai = false ->
  exists r, Retrying.auditResult ctx ai = Normal r /\
    keys r =
      [ "url"; "audit_date"; "analysis_type"; "viewport"; "ai_provider";
        "overall_score"; "ai_summary"; "color_palette"; "design_flaws";
        "positive_aspects"; "ai_recommendations";
        "technology_stack"; "performance_metrics"; "accessibility_analysis";
        "mobile_analysis"; "seo_analysis"; "content_analysis";
        "conversion_analysis"; "scores"; "screenshot_url" ] /\
    (forall k d k', In (k, d) defaults -> In (k, k') persisted_as ->
      exists raw, get_prop ai k = Normal raw /\ field r k' = Some (js_or raw d)) /\
    exists raw scores, get_prop ai "score" = Normal raw /\
      field r "scores" = Some scores /\
      field scores "overall_ux" = Some (js_or raw (VNum 0)).
Proof.
  intros Hn. unfold Retrying.auditResult.
  destruct (get_prop_total ai "score" Hn) as [r1 E1].
  destruct (get_prop_total ai "summary" Hn) as [r2 E2].
  destruct (get_prop_total ai "color_palette" Hn) as [r3 E3].
  destruct (get_prop_total ai "design_flaws" Hn) as [r4 E4].
  destruct (get_prop_total ai "positive_aspects" Hn) as [r5 E5].
  destruct (get_prop_total ai "recommendations" Hn) as [r6 E6].
  rewrite E1, E2, E3, E4, E5, E6. cbv beta iota delta [bind].
  destruct (get_prop_total (VObj (Retrying.performance ctx)) "performance_score" eq_refl) as [m1 M1].
  destruct (get_prop_total (VObj (Retrying.accessibility ctx)) "accessibility_score" eq_refl) as [m2 M2].
  destruct (get_prop_total (VObj (Retrying.mobile ctx)) "mobile_score" eq_refl) as [m3 M3].
  destruct (get_prop_total (VObj (Retrying.seo ctx)) "seo_score" eq_refl) as [m4 M4].
  destruct (get_prop_total (VObj (Retrying.content ctx)) "content_score" eq_refl) as [m5 M5].
  destruct (get_prop_total (VObj (Retrying.conversion ctx)) "conversion_score" eq_refl) as [m6 M6].
  rewrite M1, M2, M3, M4, M5, M6. cbv beta iota delta [bind].
  eexists. split; [reflexivity|]. split; [reflexivity|]. split.
  - intros k d k' H H'. simpl in H.
    repeat (destruct H as [H|H];
      [injection H as <- <-; simpl in H';
       repeat (destruct H' as [H'|H'];
         [first [discriminate H'
                | injection H' as <-; eexists; split; [eassumption|reflexivity]]|]);
       contradiction|]).
    contradiction.
  - eexists; eexists. split; [reflexivity|]. split; reflexivity.
Qed.

Lemma present_reads_value (ai : value) (key : string) (v : value) :
  field ai key = Some v -> get_prop ai key = Normal v.
Proof.
  destruct ai; simpl; try discriminate. apply get_prop_own.
Qed.

Lemma absent_reads_undefined (ai : value) (key : string) :
  is_nullish ai = false -> In key contract_keys -> field ai key = None ->
  get_prop ai key = Normal VUndefined.
Proof.
  intros Hn Hin H.
  destruct ai; try discriminate; try (apply get_prop_absent; assumption);
    simpl in Hin |- *;
    repeat (destruct Hin as [<-|Hin]; [reflexivity|]); contradiction.
Qed.

Lemma defaults_cover_contract (k : string) (d : value) :
  In (k, d) defaults -> In k contract_keys.
Proof.
  intros H. change contract_keys with (map fst defaults).
  apply (in_map fst) in H. exact H.
Qed.

(** C5 as stated fails twice over: the reply [null] parses but makes the
    construction of the record throw, so no field is produced; and a
    reply that lacks exactly the three named properties but carries an
    empty summary does not keep that summary. *)
Lemma null_reply_and_empty_summary_not_normalized :
  FreeTier.auditResult sample_flat_context VNull
    = Throw (mkError "TypeError"
               (Some "Cannot read properties of null (reading 'score')"))
  /\
  field empty_summary_reply "color_palette" = None /\
  field empty_summary_reply "design_flaws" = None /\
  field empty_summary_reply "recommendations" = None /\
  field empty_summary_reply "summary" = Some (VStr "") /\
  exists r, FreeTier.auditResult sample_flat_context empty_summary_reply = Normal r /\
    field r "summary" = Some (VStr "No summary available") /\
    field r "summary" <> field empty_summary_reply "summary".
Proof.
  repeat split. eexists. repeat split. discriminate.
Qed.

(** C5 (amended): for every parsed reply other than [null] (parsing never
    yields [undefined]) the record is built and holds all six contract
    properties; a property absent from
    the reply holds its default ([0], "No summary available", or the
    empty sequence), a present one holds its value when that is truthy
    and the default otherwise; so a reply lacking exactly [color_palette],
    [design_flaws] and [recommendations] gets the empty sequence for these
    three and keeps each of the other three whose value is truthy. *)
Theorem normalization_fills_defaults (ctx : FreeTier.page_context) (ai : value) :
  is_nullish ai = false ->
  exists r, FreeTier.auditResult ctx ai = Normal r /\
    (forall k, In k contract_keys -> exists v, field r k = Some v) /\
    (forall k d, In (k, d) defaults -> field ai k = None -> field r k = Some d) /\
    (forall k d raw, In (k, d) defaults -> field ai k = Some raw ->
       field r k = Some (if truthy raw then raw else d)) /\
    (field ai "color_palette" = None -> field ai "design_flaws" = None ->
     field ai "recommendations" = None ->
     forall s m pa,
       field ai "score" = Some s -> field ai "summary" = Some m ->
       field ai "positive_aspects" = Some pa ->
       field r "color_palette" = Some (VArr []) /\
       field r "design_flaws" = Some (VArr []) /\
       field r "recommendations" = Some (VArr []) /\
       (truthy s = true -> field r "score" = Some s) /\
       (truthy m = true -> field r "summary" = Some m) /\
       (truthy pa = true -> field r "positive_aspects" = Some pa)).
Proof.
  intros Hn.
  destruct (flat_record_fields ctx ai Hn) as (r & Hr & _ & Hf).
  assert (Habs : forall k d, In (k, d) defaults -> field ai k = None ->
                 field r k = Some d).
  { intros k d Hin Hnone. destruct (Hf k d Hin) as (raw & Hraw & Hk).
    rewrite (absent_reads_undefined ai k Hn (defaults_cover_contract k d Hin) Hnone)
      in Hraw.
    injection Hraw as <-. exact Hk. }
  assert (Hpres : forall k d raw, In (k, d) defaults -> field ai k = Some raw ->
                  field r k = Some (if truthy raw then raw else d)).
  { intros k d raw Hin Hsome. destruct (Hf k d Hin) as (raw' & Hraw & Hk).
    rewrite (present_reads_value ai k raw Hsome) in Hraw.
    injection Hraw as <-. exact Hk. }
  exists r. split; [exact Hr|]. split; [|split; [exact Habs|split; [exact Hpres|]]].
  - intros k Hin. change contract_keys with (map fst defaults) in Hin.
    apply in_map_iff in Hin. destruct Hin as ([k0 d] & <- & Hin). simpl.
    destruct (Hf k0 d Hin) as (raw & _ & Hk). eauto.
  - intros A1 A2 A3 s m pa P1 P2 P3.
    split; [apply Habs; [simpl; tauto|exact A1]|].
    split; [apply Habs; [simpl; tauto|exact A2]|].
    split; [apply Habs; [simpl; tauto|exact A3]|].
    split; [|split]; intros Ht.
    + rewrite (Hpres "score" (VNum 0) s) by (simpl; tauto || assumption).
      rewrite Ht. reflexivity.
    + rewrite (Hpres "summary" (VStr "No summary available") m)
        by (simpl; tauto || assumption).
      rewrite Ht. reflexivity.
    + rewrite (Hpres "positive_aspects" (VArr []) pa)
        by (simpl; tauto || assumption).
      rewrite Ht. reflexivity.
Qed.

Lemma normalization_fills_defaults_witness :
  is_nullish partial_reply = false /\
  exists r, FreeTier.auditResult sample_flat_context partial_reply = Normal r /\
    field r "color_palette" = Some (VArr []) /\
    field r "design_flaws" = Some (VArr []) /\
    field r "recommendations" = Some (VArr []) /\
    field r "score" = Some (VNum 7) /\
    field r "summary" = Some (VStr "Clean layout") /\
    field r "positive_aspects" = Some (VArr [VStr "Clear headings"]).
Proof.
  split; [reflexivity|].
  destruct (normalization_fills_defaults sample_flat_context partial_reply eq_refl)
    as (r & Hr & _ & _ & _ & H).
  exists r. split; [exact Hr|].
  destruct (H eq_refl eq_refl eq_refl _ _ _ eq_refl eq_refl eq_refl)
    as (H1 & H2 & H3 & H4 & H5 & H6).
  repeat split; [exact H1 | exact H2 | exact H3
                | exact (H4 eq_refl) | exact (H5 eq_refl) | exact (H6 eq_refl)].
Defined.

Lemma positive_score_truthy (q : Q) : (1 <= q)%Q -> truthy (VNum q) = true.
Proof.
  unfold Qle. simpl. intros H.
  destruct (Z.eqb_spec (Qnum q) 0) as [E|E]; [|reflexivity].
  rewrite E in H. simpl in H. lia.
Qed.

Lemma nonempty_string_truthy (s : string) : s <> "" -> truthy (VStr s) = true.
Proof.
  intros H. simpl. apply String.eqb_neq in H. rewrite H. reflexivity.
Qed.

(** C6: a reply holding all six properties with valid types (a score
    between 1 and 10, a non-empty summary, four sequences of strings)
    comes out of the construction of the record with the six values
    unchanged, in the flat record under their own names and in the
    comprehensive record under the names it stores them by. *)
Theorem valid_reply_round_trip
    (ctxF : FreeTier.page_context) (ctxR : Retrying.page_context)
    (props : list (string * value)) (q : Q) (s : string)
    (palette flaws positives advice : list string) :
  own_prop props "score" = Some (VNum q) -> (1 <= q)%Q -> (q <= 10)%Q ->
  own_prop props "summary" = Some (VStr s) -> s <> "" ->
  own_prop props "color_palette" = Some (VArr (map VStr palette)) ->
  own_prop props "design_flaws" = Some (VArr (map VStr flaws)) ->
  own_prop props "positive_aspects" = Some (VArr (map VStr positives)) ->
  own_prop props "recommendations" = Some (VArr (map VStr advice)) ->
  (exists r, FreeTier.auditResult ctxF (VObj props) = Normal r /\
     forall k, In k contract_keys -> field r k = own_prop props k)
  /\
  (exists r scores, Retrying.auditResult ctxR (VObj props) = Normal r /\
     (forall k k', In (k, k') persisted_as -> field r k' = own_prop props k) /\
     field r "scores" = Some scores /\
     field scores "overall_ux" = own_prop props "score").
Proof.
  intros P1 Q1 _ P2 S2 P3 P4 P5 P6.
  pose proof (positive_score_truthy q Q1) as T1.
  pose proof (nonempty_string_truthy s S2) as T2.
  assert (Hall : forall k d, In (k, d) defaults ->
            exists v, own_prop props k = Some v /\ js_or v d = v).
  { intros k d H. simpl in H.
    repeat (destruct H as [H|H];
      [injection H as <- <-; eexists; split;
         [eassumption | first [apply js_or_truthy; assumption | reflexivity]]|]).
    contradiction. }
  split.
  - destruct (flat_record_fields ctxF (VObj props) eq_refl) as (r & Hr & _ & Hf).
    exists r. split; [exact Hr|].
    intros k Hin. change contract_keys with (map fst defaults) in Hin.
    apply in_map_iff in Hin. destruct Hin as ([k0 d] & <- & Hin). simpl.
    destruct (Hf k0 d Hin) as (raw & Hraw & Hk).
    destruct (Hall k0 d Hin) as (v & Hv & Hor).
    rewrite (get_prop_own props k0 v Hv) in Hraw. injection Hraw as <-.
    rewrite Hk, Hor, Hv. reflexivity.
  - destruct (comprehensive_record_fields ctxR (VObj props) eq_refl)
      as (r & Hr & _ & Hf & raw & scores & Hraw & Hs & Hux).
    exists r, scores. split; [exact Hr|]. split; [|split; [exact Hs|]].
    + intros k k' Hin.
      assert (Hd : exists d, In (k, d) defaults).
      { simpl in Hin.
        repeat (destruct Hin as [Hin|Hin];
                [injection Hin as <- <-; eexists; simpl; tauto|]).
        contradiction. }
      destruct Hd as [d Hd].
      destruct (Hf k d k' Hd Hin) as (raw' & Hraw' & Hk).
      destruct (Hall k d Hd) as (v & Hv & Hor).
      rewrite (get_prop_own props k v Hv) in Hraw'. injection Hraw' as <-.
      rewrite Hk, Hor, Hv. reflexivity.
    + rewrite (get_prop_own props "score" _ P1) in Hraw. injection Hraw as <-.
      rewrite Hux, P1. unfold js_or. rewrite T1. reflexivity.
Qed.

Lemma valid_reply_round_trip_witness :
  (exists r, FreeTier.auditResult sample_flat_context good_reply = Normal r /\
     forall k, In k contract_keys -> field r k = field good_reply k)
  /\
  (exists r scores,
     Retrying.auditResult sample_comprehensive_context good_reply = Normal r /\
     (forall k k', In (k, k') persisted_as -> field r k' = field good_reply k) /\
     field r "scores" = Some scores /\
     field scores "overall_ux" = field good_reply "score").
Proof.
  apply (valid_reply_round_trip sample_flat_context sample_comprehensive_context
           _ 8 "Good structure" ["#FFFFFF"] [] ["Clear headings"]
           ["Add meta description"]);
    first [reflexivity | discriminate].
Defined.

Lemma flat_record_needs_reply (ctx : FreeTier.page_context) (ai r : value) :
  FreeTier.auditResult ctx ai = Normal r -> is_nullish ai = false.
Proof. destruct ai; simpl; (reflexivity || discriminate). Qed.

Lemma comprehensive_record_needs_reply
    (ctx : Retrying.page_context) (ai r : value) :
  Retrying.auditResult ctx ai = Normal r -> is_nullish ai = false.
Proof. destruct ai; simpl; (reflexivity || discriminate). Qed.

(** C7 as stated fails on the comprehensive record of the retrying
    revision: it has no property named [score], [summary] or
    [recommendations]; the values are stored as [overall_score],
    [ai_summary] and [ai_recommendations]. *)
Lemma comprehensive_record_renames_contract_keys :
  exists r,
    Retrying.auditResult sample_comprehensive_context good_reply = Normal r /\
    field r "score" = None /\
    field r "summary" = None /\
    field r "recommendations" = None /\
    field r "overall_score" = Some (VNum 8) /\
    field r "ai_summary" = Some (VStr "Good structure") /\
    field r "ai_recommendations" = Some (VArr [VStr "Add meta description"]).
Proof.
  eexists. repeat split.
Qed.

(** C7 (amended): the flat record of the free-tier revision stores the six
    normalized values under exactly the names [score], [summary],
    [color_palette], [design_flaws], [positive_aspects],
    [recommendations]; the comprehensive record of the retrying revision
    stores the same six values under [overall_score], [ai_summary],
    [color_palette], [design_flaws], [positive_aspects],
    [ai_recommendations], and has no property [score], [summary] or
    [recommendations]. *)
Theorem persisted_key_names
    (ctxF : FreeTier.page_context) (ctxR : Retrying.page_context)
    (ai rF rR : value) :
  FreeTier.auditResult ctxF ai = Normal rF ->
  Retrying.auditResult ctxR ai = Normal rR ->
  keys rF =
    [ "url"; "audit_date"; "analysis_type"; "viewport"; "ai_provider";
      "score"; "summary"; "color_palette"; "design_flaws";
      "positive_aspects"; "recommendations";
      "screenshot_url"; "free_tier_remaining" ] /\
  (forall k d, In (k, d) defaults ->
     exists raw, get_prop ai k = Normal raw /\ field rF k = Some (js_or raw d)) /\
  keys rR =
    [ "url"; "audit_date"; "analysis_type"; "viewport"; "ai_provider";
      "overall_score"; "ai_summary"; "color_palette"; "design_flaws";
      "positive_aspects"; "ai_recommendations";
      "technology_stack"; "performance_metrics"; "accessibility_analysis";
      "mobile_analysis"; "seo_analysis"; "content_analysis";
      "conversion_analysis"; "scores"; "screenshot_url" ] /\
  (forall k d k', In (k, d) defaults -> In (k, k') persisted_as ->
     exists raw, get_prop ai k = Normal raw /\ field rR k' = Some (js_or raw d)) /\
  field rR "score" = None /\ field rR "summary" = None /\
  field rR "recommendations" = None.
Proof.
  intros HF HR.
  pose proof (flat_record_needs_reply ctxF ai rF HF) as Hn.
  destruct (flat_record_fields ctxF ai Hn) as (r1 & Hr1 & Hk1 & Hf1).
  destruct (comprehensive_record_fields ctxR ai Hn) as (r2 & Hr2 & Hk2 & Hf2 & _).
  rewrite HF in Hr1. injection Hr1 as <-.
  rewrite HR in Hr2. injection Hr2 as <-.
  split; [exact Hk1|]. split; [exact Hf1|]. split; [exact Hk2|].
  split; [exact Hf2|].
  destruct rR as [| | | | | |props|]; try discriminate Hk2.
  simpl in Hk2.
  do 20 (destruct props as [|[? ?] props]; [discriminate Hk2|]).
  destruct props; [|discriminate Hk2].
  simpl in Hk2. injection Hk2 as -> -> -> -> -> -> -> -> -> -> -> -> -> -> -> -> -> -> -> ->.
  repeat split.
Qed.

Lemma persisted_key_names_witness :
  exists rF rR,
    FreeTier.auditResult sample_flat_context good_reply = Normal rF /\
    Retrying.auditResult sample_comprehensive_context good_reply = Normal rR /\
    In "score" (keys rF) /\ In "summary" (keys rF) /\
    In "recommendations" (keys rF) /\
    field rR "score" = None /\ field rR "summary" = None /\
    field rR "recommendations" = None.
Proof.
  eexists. eexists.
  split; [reflexivity|]. split; [reflexivity|].
  destruct (persisted_key_names sample_flat_context sample_comprehensive_context
              good_reply _ _ eq_refl eq_refl)
    as (Hk & _ & _ & _ & H1 & H2 & H3).
  rewrite Hk. simpl. tauto.
Defined.

Lemma join_completes_cases (v : value) (expression : string) :
  (Retrying.joins v = true /\ Retrying.join_completes v expression = Normal tt)
  \/ (Retrying.joins v = false /\
      exists err, Retrying.join_completes v expression = Throw err).
Proof.
  destruct v; simpl; eauto.
  destruct (forallb Retrying.stringifies items); eauto.
Qed.

Lemma js_or_array_joinable (v : value) :
  Retrying.joins (js_or v (VArr [])) = joinable v.
Proof. unfold js_or, joinable. destruct (truthy v); reflexivity. Qed.

Lemma lists_joinable_spec (props : list (string * value)) :
  lists_joinable props
  = Retrying.joins (js_or (prop props "color_palette") (VArr []))
    && (Retrying.joins (js_or (prop props "design_flaws") (VArr []))
    && (Retrying.joins (js_or (prop props "positive_aspects") (VArr []))
    && (Retrying.joins (js_or (prop props "recommendations") (VArr []))
    && true))).
Proof.
  unfold lists_joinable, list_keys, forallb, prop.
  rewrite !js_or_array_joinable.
  destruct (own_prop props "color_palette"),
           (own_prop props "design_flaws"),
           (own_prop props "positive_aspects"),
           (own_prop props "recommendations"); reflexivity.
Qed.

(** [flattenedResult] is evaluated without a throw exactly when every
    list property of the reply is absent, falsy or an array that can be
    joined, and the metric objects hold such arrays. *)
Lemma flattenedResult_completes_iff (ctx : Retrying.page_context)
    (props : list (string * value)) :
  Retrying.flattenedResult_completes ctx (VObj props) = Normal tt
  <-> lists_joinable props && Retrying.metric_lists_present ctx = true.
Proof.
  rewrite lists_joinable_spec.
  unfold Retrying.flattenedResult_completes, Retrying.metric_lists_present.
  rewrite !get_prop_object. cbv beta iota delta [bind].
  repeat match goal with
  | |- context [Retrying.join_completes ?v ?e] =>
      let Ha := fresh "Ha" in
      destruct (join_completes_cases v e) as [[Ha ->] | [Ha [? ->]]];
      rewrite Ha;
      [ cbv beta iota
      | simpl; rewrite ?andb_false_r; split; discriminate ]
  end.
  simpl. split; reflexivity.
Qed.

Lemma comprehensive_record_built (ctx : Retrying.page_context)
    (props : list (string * value)) (r : value) :
  Retrying.comprehensive_record ctx (VObj props) = Normal r ->
  Retrying.auditResult ctx (VObj props) = Normal r /\
  lists_joinable props = true /\ Retrying.metric_lists_present ctx = true.
Proof.
  unfold Retrying.comprehensive_record. intros H.
  destruct (Retrying.flattenedResult_completes ctx (VObj props)) as [[]|e] eqn:E;
    [|discriminate].
  apply flattenedResult_completes_iff in E. apply andb_true_iff in E.
  simpl in H. tauto.
Qed.

(** C10: the record keeps a present property only when its value is
    truthy.  A present empty summary becomes "No summary available", a
    present score of 0 comes out as 0, a present empty array is kept for
    each list property; in general a present value is stored as it is
    when it is truthy and as the default otherwise.  This holds for the
    flat record of the free-tier revision, which is built for every
    reply object, and for the comprehensive record of the retrying
    revision whenever the handler gets to build it, which it does when
    every list property of the reply is absent, falsy or an array that
    can be joined (the flattened report built just before joins them
    and throws otherwise, so that no record is built for a truthy list
    property that is not an array).  So a present key does not
    guarantee that its value is kept. *)
Theorem falsy_values_replaced
    (ctxF : FreeTier.page_context) (ctxR : Retrying.page_context)
    (props : list (string * value)) :
  (exists rF,
     FreeTier.auditResult ctxF (VObj props) = Normal rF /\
     (forall k d v, In (k, d) defaults -> own_prop props k = Some v ->
        field rF k = Some (if truthy v then v else d)) /\
     (own_prop props "summary" = Some (VStr "") ->
        field rF "summary" = Some (VStr "No summary available") /\
        field rF "summary" <> own_prop props "summary") /\
     (own_prop props "score" = Some (VNum 0) ->
        field rF "score" = Some (VNum 0)) /\
     (forall k, In k list_keys -> own_prop props k = Some (VArr []) ->
        field rF k = Some (VArr [])))
  /\
  (forall rR,
     Retrying.comprehensive_record ctxR (VObj props) = Normal rR ->
     (forall k d k' v, In (k, d) defaults -> In (k, k') persisted_as ->
        own_prop props k = Some v ->
        field rR k' = Some (if truthy v then v else d)) /\
     (own_prop props "summary" = Some (VStr "") ->
        field rR "ai_summary" = Some (VStr "No summary available") /\
        field rR "ai_summary" <> own_prop props "summary") /\
     (own_prop props "score" = Some (VNum 0) ->
        field rR "overall_score" = Some (VNum 0)) /\
     (forall k k', In k list_keys -> In (k, k') persisted_as ->
        own_prop props k = Some (VArr []) -> field rR k' = Some (VArr [])))
  /\
  (Retrying.metric_lists_present ctxR = true -> lists_joinable props = true ->
   exists rR, Retrying.comprehensive_record ctxR (VObj props) = Normal rR)
  /\
  (forall k v, In k list_keys -> own_prop props k = Some v ->
     joinable v = false ->
     exists e, Retrying.comprehensive_record ctxR (VObj props) = Throw e).
Proof.
  assert (Hlist : forall k, In k list_keys -> In (k, VArr []) defaults).
  { intros k Hk. simpl in Hk |- *.
    repeat (destruct Hk as [<-|Hk]; [tauto|]). contradiction. }
  split; [|split; [|split]].
  - destruct (flat_record_fields ctxF (VObj props) eq_refl) as (rF & HF & _ & Hf).
    assert (Hgen : forall k d v, In (k, d) defaults -> own_prop props k = Some v ->
              field rF k = Some (if truthy v then v else d)).
    { intros k d v Hd Hv. destruct (Hf k d Hd) as (raw & E & F).
      rewrite (get_prop_own props k v Hv) in E. injection E as <-. exact F. }
    exists rF. split; [exact HF|]. split; [exact Hgen|].
    split; [|split].
    + intros H.
      pose proof (Hgen "summary" (VStr "No summary available") (VStr "")
                    ltac:(simpl; tauto) H) as E.
      split; [exact E|]. rewrite E, H. discriminate.
    + intros H.
      exact (Hgen "score" (VNum 0) (VNum 0) ltac:(simpl; tauto) H).
    + intros k Hk Hv. exact (Hgen k (VArr []) (VArr []) (Hlist k Hk) Hv).
  - intros rR HR.
    destruct (comprehensive_record_built ctxR props rR HR) as (HA & _ & _).
    destruct (comprehensive_record_fields ctxR (VObj props) eq_refl)
      as (r' & Hr' & _ & Hr & _).
    rewrite HA in Hr'. injection Hr' as <-.
    assert (Hgen : forall k d k' v, In (k, d) defaults -> In (k, k') persisted_as ->
              own_prop props k = Some v ->
              field rR k' = Some (if truthy v then v else d)).
    { intros k d k' v Hd Hp Hv. destruct (Hr k d k' Hd Hp) as (raw & E & F).
      rewrite (get_prop_own props k v Hv) in E. injection E as <-. exact F. }
    split; [exact Hgen|]. split; [|split].
    + intros H.
      pose proof (Hgen "summary" (VStr "No summary available") "ai_summary"
                    (VStr "") ltac:(simpl; tauto) ltac:(simpl; tauto) H) as E.
      split; [exact E|]. rewrite E, H. discriminate.
    + intros H.
      exact (Hgen "score" (VNum 0) "overall_score" (VNum 0)
               ltac:(simpl; tauto) ltac:(simpl; tauto) H).
    + intros k k' Hk Hp Hv.
      exact (Hgen k (VArr []) k' (VArr []) (Hlist k Hk) Hp Hv).
  - intros Hm Hl.
    destruct (comprehensive_record_fields ctxR (VObj props) eq_refl)
      as (rR & HA & _).
    exists rR. unfold Retrying.comprehensive_record.
    assert (E : Retrying.flattenedResult_completes ctxR (VObj props) = Normal tt).
    { apply flattenedResult_completes_iff. rewrite Hl, Hm. reflexivity. }
    rewrite E. exact HA.
  - intros k v Hk Hv Hj.
    destruct (Retrying.comprehensive_record ctxR (VObj props)) as [r|e] eqn:E;
      [|eauto].
    destruct (comprehensive_record_built ctxR props r E) as (_ & Hl & _).
    exfalso. unfold lists_joinable in Hl.
    rewrite forallb_forall in Hl. specialize (Hl k Hk).
    rewrite Hv in Hl. congruence.
Qed.

Lemma falsy_values_replaced_witness :
  exists rF rR,
    FreeTier.auditResult sample_flat_context falsy_reply = Normal rF /\
    Retrying.comprehensive_record analyzed_context falsy_reply = Normal rR /\
    field rF "summary" = Some (VStr "No summary available") /\
    field rR "ai_summary" = Some (VStr "No summary available") /\
    field rF "score" = Some (VNum 0) /\
    field rR "overall_score" = Some (VNum 0) /\
    field rF "design_flaws" = Some (VArr []) /\
    field rR "ai_recommendations" = Some (VArr []).
Proof.
  destruct (falsy_values_replaced sample_flat_context analyzed_context
              [ ("score", VNum 0); ("summary", VStr "");
                ("color_palette", VArr []); ("design_flaws", VArr []);
                ("positive_aspects", VArr []); ("recommendations", VArr []) ])
    as ((rF & HF & _ & Hs & Hz & Hl) & HRall & Hbuilt & _).
  destruct (Hbuilt eq_refl eq_refl) as [rR HR].
  destruct (HRall rR HR) as (_ & Hs' & Hz' & Hl').
  exists rF, rR. split; [exact HF|]. split; [exact HR|].
  destruct (Hs eq_refl) as [S1 _]. destruct (Hs' eq_refl) as [S2 _].
  pose proof (Hz eq_refl) as Z1. pose proof (Hz' eq_refl) as Z2.
  pose proof (Hl "design_flaws" ltac:(simpl; tauto) eq_refl) as L1.
  pose proof (Hl' "recommendations" "ai_recommendations"
                ltac:(simpl; tauto) ltac:(simpl; tauto) eq_refl) as L2.
  repeat split; assumption.
Defined.

(** ** End-to-end scenario *)

(** Credential "AIza_test_key", category "seo", a native-vision provider
    answering with the sample reply: the Gemini handle is selected, one
    call is made with the "seo" instruction, the reply is returned as
    parsed, and the persisted record carries its six values. *)
Lemma end_to_end_native_vision :
  Retrying.initializeAIProvider "AIza_test_key"
    = Normal (mkHandle "gemini" (GoogleGenerativeAI "AIza_test_key") None)
  /\
  Retrying.analyzeWithGemini (list attempt_outcome) scripted
    "iVBORw0KGgo=" "seo" "https://example.com"
    (mkWorld [ContentParses good_reply] [])
  = (Normal good_reply,
     mkWorld []
       [EvGenerate
          (Retrying.gemini_request_of (VStr ANALYSIS_PROMPTS_seo)
             "iVBORw0KGgo=" "seo" "https://example.com")])
  /\
  exists r,
    Retrying.auditResult sample_comprehensive_context good_reply = Normal r /\
    forall k k', In (k, k') persisted_as -> field r k' = field good_reply k.
Proof.
  split; [reflexivity|]. split; [reflexivity|].
  eexists. split; [reflexivity|].
  intros k k' H. simpl in H.
  repeat (destruct H as [H|H]; [injection H as <- <-; reflexivity|]).
  contradiction.
Qed.

(** * Further properties of the retrying revision *)

(** ** Shape of an invocation of the chat-completion path *)

(** The text put in front of the last error's message when the retries
    are used up contains none of the substrings the handler looks for. *)
Lemma exhaustion_prefix_transparent (m : string) :
  includes ("API failed after 3 attempts. Last error: " ++ m) "401"
    = includes m "401" /\
  includes ("API failed after 3 attempts. Last error: " ++ m) "authentication"
    = includes m "authentication" /\
  includes ("API failed after 3 attempts. Last error: " ++ m) "429"
    = includes m "429" /\
  includes ("API failed after 3 attempts. Last error: " ++ m) "rate limit"
    = includes m "rate limit".
Proof. repeat split. Qed.

(** X1: whatever the provider answers, an invocation of
    [analyzeWithOpenAI] leaves one of four traces: one call; two calls
    with a 2 s sleep between; three calls with sleeps of 2 s and 4 s; or
    three calls each followed by its sleep (2, 4, 8 s), in which case the
    result is the "API failed after 3 attempts" error.  The backoff never
    adds up to more than 14 s, and a returned value is always the parsed
    reply of the last call made. *)
Theorem chat_invocation_trace_shapes
    (PS : Type) (create : chat_request -> PS -> attempt_outcome * PS)
    (screenshotBase64 analysisType url : string) (model : option string)
    (s0 : PS) (p : value) :
  prompt analysisType = Normal p ->
  let req := Retrying.chat_request_of p screenshotBase64 analysisType url model in
  let run := Retrying.analyzeWithOpenAI PS create screenshotBase64 analysisType
               url model (mkWorld s0 []) in
  (trace (snd run) = [EvCreate req]
   \/ trace (snd run) = [EvCreate req; EvSleep 2000; EvCreate req]
   \/ trace (snd run) = [EvCreate req; EvSleep 2000; EvCreate req;
                         EvSleep 4000; EvCreate req]
   \/ (trace (snd run) = [EvCreate req; EvSleep 2000; EvCreate req;
                          EvSleep 4000; EvCreate req; EvSleep 8000]
       /\ exists m, fst run = Throw (mkError "Error" (Some
             ("API failed after 3 attempts. Last error: " ++ m)))))
  /\ (0 <= total_backoff (trace (snd run)) <= 14000)%Z
  /\ (forall v, fst run = Normal v ->
        exists s s' o, create req s = (o, s') /\ parsed o = Normal v /\
                       provider_state (snd run) = s').
Proof.
  intros Hp req run.
  assert (Hrun : run = Retrying.attempts PS create 3 None req (mkWorld s0 [])).
  { unfold run, Retrying.analyzeWithOpenAI. rewrite Hp. reflexivity. }
  rewrite Hrun. clear Hrun run.
  destruct (create req s0) as [o1 s1] eqn:C1.
  destruct (parsed o1) as [v1|e1] eqn:P1.
  { rewrite (attempt_returns _ _ _ _ _ _ _ _ _ _ C1 P1). simpl.
    split; [left; reflexivity|]. split; [vm_compute; split; discriminate|].
    intros v [= <-]. exists s0, s1, o1. repeat split; assumption. }
  destruct (Retrying.is_rate_limit e1) eqn:R1.
  2:{ rewrite (attempt_rethrows _ _ _ _ _ _ _ _ _ _ C1 P1 R1). simpl.
      split; [left; reflexivity|]. split; [vm_compute; split; discriminate|]. discriminate. }
  rewrite (attempt_backs_off _ _ _ _ _ _ _ _ _ _ C1 P1 R1).
  destruct (create req s1) as [o2 s2] eqn:C2.
  destruct (parsed o2) as [v2|e2] eqn:P2.
  { rewrite (attempt_returns _ _ _ _ _ _ _ _ _ _ C2 P2). simpl.
    split; [right; left; reflexivity|]. split; [vm_compute; split; discriminate|].
    intros v [= <-]. exists s1, s2, o2. repeat split; assumption. }
  destruct (Retrying.is_rate_limit e2) eqn:R2.
  2:{ rewrite (attempt_rethrows _ _ _ _ _ _ _ _ _ _ C2 P2 R2). simpl.
      split; [right; left; reflexivity|]. split; [vm_compute; split; discriminate|]. discriminate. }
  rewrite (attempt_backs_off _ _ _ _ _ _ _ _ _ _ C2 P2 R2).
  destruct (create req s2) as [o3 s3] eqn:C3.
  destruct (parsed o3) as [v3|e3] eqn:P3.
  { rewrite (attempt_returns _ _ _ _ _ _ _ _ _ _ C3 P3). simpl.
    split; [right; right; left; reflexivity|]. split; [vm_compute; split; discriminate|].
    intros v [= <-]. exists s2, s3, o3. repeat split; assumption. }
  destruct (Retrying.is_rate_limit e3) eqn:R3.
  2:{ rewrite (attempt_rethrows _ _ _ _ _ _ _ _ _ _ C3 P3 R3). simpl.
      split; [right; right; left; reflexivity|]. split; [vm_compute; split; discriminate|]. discriminate. }
  rewrite (attempt_backs_off _ _ _ _ _ _ _ _ _ _ C3 P3 R3). simpl.
  split; [|split; [vm_compute; split; discriminate|discriminate]].
  right; right; right. split; [reflexivity|]. eauto.
Qed.

Lemma chat_invocation_trace_shapes_witness :
  (0 <= total_backoff
          (trace (snd (Retrying.analyzeWithOpenAI (list attempt_outcome) scripted
             "iVBORw0KGgo=" "seo" "https://example.com" (Some "gpt-4o")
             (mkWorld [CallThrows rate_limit_429; ContentParses good_reply] []))))
      <= 14000)%Z.
Proof.
  pose proof (chat_invocation_trace_shapes (list attempt_outcome) scripted
    "iVBORw0KGgo=" "seo" "https://example.com" (Some "gpt-4o")
    [CallThrows rate_limit_429; ContentParses good_reply]
    (VStr ANALYSIS_PROMPTS_seo) eq_refl) as H.
  cbv zeta in H. destruct H as (_ & H & _). exact H.
Defined.

(** ** The handler's view of a failed or finished AI call *)

Lemma attempts_calls_at_least (PS : Type)
    (create : chat_request -> PS -> attempt_outcome * PS) (later : nat) :
  forall lastError req w,
    (provider_calls (trace w) + 1
     <= provider_calls
          (trace (snd (Retrying.attempts PS create (S later) lastError req w))))%nat.
Proof.
  induction later as [|later IH]; intros lastError req [s t];
    destruct (create req s) as [o s'] eqn:Hc;
    destruct (parsed o) as [v|e] eqn:Hp;
    try (rewrite (attempt_returns _ _ _ _ _ _ _ _ _ _ Hc Hp); simpl;
         unfold provider_calls; rewrite filter_app, length_app; simpl; lia);
    (destruct (Retrying.is_rate_limit e) eqn:Hr;
     [ rewrite (attempt_backs_off _ _ _ _ _ _ _ _ _ _ Hc Hp Hr)
     | rewrite (attempt_rethrows _ _ _ _ _ _ _ _ _ _ Hc Hp Hr); simpl;
       unfold provider_calls; rewrite filter_app, length_app; simpl; lia ]).
  - simpl. unfold provider_calls. rewrite filter_app, length_app. simpl. lia.
  - etransitivity; [|apply IH]. simpl.
    unfold provider_calls. rewrite filter_app, length_app. simpl. lia.
Qed.

Lemma attempts_events (PS : Type)
    (create : chat_request -> PS -> attempt_outcome * PS) (remaining : nat) :
  forall lastError req w,
    Forall (chat_event req) (trace w) ->
    Forall (chat_event req)
      (trace (snd (Retrying.attempts PS create remaining lastError req w))).
Proof.
  induction remaining as [|later IH]; intros lastError req [s t] H.
  - exact H.
  - destruct (create req s) as [o s'] eqn:Hc.
    assert (H1 : Forall (chat_event req) (t ++ [EvCreate req])).
    { apply Forall_app. split; [exact H|]. constructor; [left; reflexivity|constructor]. }
    destruct (parsed o) as [v|e] eqn:Hp.
    + rewrite (attempt_returns _ _ _ _ _ _ _ _ _ _ Hc Hp). exact H1.
    + destruct (Retrying.is_rate_limit e) eqn:Hr.
      * rewrite (attempt_backs_off _ _ _ _ _ _ _ _ _ _ Hc Hp Hr).
        apply IH. simpl. apply Forall_app. split; [exact H|].
        constructor; [left; reflexivity|].
        constructor; [right; eauto|constructor].
      * rewrite (attempt_rethrows _ _ _ _ _ _ _ _ _ _ Hc Hp Hr). exact H1.
Qed.

Lemma resolved_handle_kinds (apiKey : string) (h : ProviderHandle) :
  Retrying.initializeAIProvider apiKey = Normal h ->
  (startsWith apiKey "sk-or-" = true /\
   h = mkHandle "openrouter"
         (OpenAI apiKey (Some "https://openrouter.ai/api/v1")
            [ ("HTTP-Referer", "https://apify.com/");
              ("X-Title", "Apify UI/UX Auditor") ])
         (Some "openai/gpt-4o-mini"))
  \/ (startsWith apiKey "sk-or-" = false /\ startsWith apiKey "sk-" = true /\
      h = mkHandle "openai" (OpenAI apiKey None []) (Some "gpt-4o"))
  \/ (startsWith apiKey "sk-" = false /\ startsWith apiKey "AIza" = true /\
      h = mkHandle "gemini" (GoogleGenerativeAI apiKey) None).
Proof.
  unfold Retrying.initializeAIProvider.
  destruct (negb (truthy (VStr apiKey))); [discriminate|].
  destruct (startsWith apiKey "sk-or-") eqn:H1; [intros [= <-]; auto|].
  destruct (startsWith apiKey "sk-") eqn:H2; [intros [= <-]; auto|].
  destruct (startsWith apiKey "AIza") eqn:H3; [intros [= <-]; auto 6|].
  discriminate.
Qed.

Lemma surfaced_exhaustion (m : string) :
  Retrying.surfaced (mkError "Error" (Some
    ("API failed after 3 attempts. Last error: " ++ m)))
  = if includes m "401" || includes m "authentication" then
      mkError "Error" (Some "Invalid API Key provided. Please check your API key.")
    else if includes m "429" || includes m "rate limit" then
      mkError "Error" (Some
        "Rate limit exceeded. Please try again in a few minutes or upgrade your API plan.")
    else
      Retrying.surfaced (mkError "Error" (Some
        ("API failed after 3 attempts. Last error: " ++ m))).
Proof.
  unfold Retrying.surfaced, Retrying.mentions.
  change (message (mkError "Error"
            (Some ("API failed after 3 attempts. Last error: " ++ m))))
    with (Some ("API failed after 3 attempts. Last error: " ++ m)).
  cbv beta iota.
  destruct (exhaustion_prefix_transparent m) as (E1 & E2 & E3 & E4).
  rewrite E1, E2, E3, E4.
  destruct (includes m "401" || includes m "authentication"); [reflexivity|].
  destruct (includes m "429" || includes m "rate limit"); reflexivity.
Qed.

(** X2: when the chat-completion path gives up after three rate limits,
    the handler reports 'Rate limit exceeded ...', unless the last
    provider message also contains "401" or "authentication", in which
    case it reports 'Invalid API Key provided ...'; three provider calls
    have been made by then. *)
Theorem exhausted_retries_surfaced
    (PS : Type) (create : chat_request -> PS -> attempt_outcome * PS)
    (generateContent : gemini_request -> PS -> attempt_outcome * PS)
    (h : ProviderHandle) (screenshotBase64 analysisType url : string)
    (p : value) (s0 s1 s2 s3 : PS) (o1 o2 o3 : attempt_outcome)
    (e1 e2 e3 : js_error) (m3 : string) :
  type h = "openai" \/ type h = "openrouter" ->
  prompt analysisType = Normal p ->
  let req := Retrying.chat_request_of p screenshotBase64 analysisType url (model h) in
  create req s0 = (o1, s1) -> parsed o1 = Throw e1 ->
  Retrying.is_rate_limit e1 = true ->
  create req s1 = (o2, s2) -> parsed o2 = Throw e2 ->
  Retrying.is_rate_limit e2 = true ->
  create req s2 = (o3, s3) -> parsed o3 = Throw e3 ->
  Retrying.is_rate_limit e3 = true -> message e3 = Some m3 ->
  let run := Retrying.perform_ai_analysis PS create generateContent h
               screenshotBase64 analysisType url (mkWorld s0 []) in
  fst run = Throw (mkError "Error" (Some
    (if includes m3 "401" || includes m3 "authentication"
     then "Invalid API Key provided. Please check your API key."
     else "Rate limit exceeded. Please try again in a few minutes or upgrade your API plan.")))
  /\ provider_calls (trace (snd run)) = 3%nat
  /\ sleeps (trace (snd run)) = [2000; 4000; 8000]%Z.
Proof.
  intros Hk Hp req C1 P1 R1 C2 P2 R2 C3 P3 R3 Hm run.
  assert (Hrun : run =
    (Throw (Retrying.surfaced (mkError "Error" (Some
       ("API failed after 3 attempts. Last error: " ++ m3)))),
     mkWorld s3 [EvCreate req; EvSleep 2000; EvCreate req;
                 EvSleep 4000; EvCreate req; EvSleep 8000])).
  { unfold run, Retrying.perform_ai_analysis.
    assert (Hd : (type h =? "openai") || (type h =? "openrouter") = true).
    { destruct Hk as [-> | ->]; reflexivity. }
    rewrite Hd. unfold Retrying.analyzeWithOpenAI. rewrite Hp.
    change (Retrying.chat_request_of p screenshotBase64 analysisType url (model h))
      with req.
    change Retrying.maxRetries with 3%nat.
    rewrite (attempt_backs_off _ _ _ _ _ _ _ _ _ _ C1 P1 R1).
    rewrite (attempt_backs_off _ _ _ _ _ _ _ _ _ _ C2 P2 R2).
    rewrite (attempt_backs_off _ _ _ _ _ _ _ _ _ _ C3 P3 R3).
    simpl. unfold Retrying.last_message. destruct e3 as [n3 msg3].
    simpl in Hm. subst msg3. reflexivity. }
  rewrite Hrun. split; [|split; reflexivity].
  cbv beta iota delta [fst]. rewrite surfaced_exhaustion.
  destruct (includes m3 "401" || includes m3 "authentication"); [reflexivity|].
  unfold Retrying.is_rate_limit in R3. rewrite Hm in R3. rewrite R3. reflexivity.
Qed.

Lemma exhausted_retries_surfaced_witness :
  fst (Retrying.perform_ai_analysis (list attempt_outcome) scripted scripted
         (mkHandle "openai" (OpenAI "sk-test" None []) (Some "gpt-4o"))
         "iVBORw0KGgo=" "seo" "https://example.com"
         (mkWorld [CallThrows rate_limit_429; CallThrows rate_limit_text;
                   CallThrows rate_limit_429] []))
  = Throw (mkError "Error" (Some
      "Rate limit exceeded. Please try again in a few minutes or upgrade your API plan.")).
Proof.
  pose proof (exhausted_retries_surfaced (list attempt_outcome) scripted scripted
    (mkHandle "openai" (OpenAI "sk-test" None []) (Some "gpt-4o"))
    "iVBORw0KGgo=" "seo" "https://example.com" (VStr ANALYSIS_PROMPTS_seo)
    [CallThrows rate_limit_429; CallThrows rate_limit_text;
     CallThrows rate_limit_429]
    [CallThrows rate_limit_text; CallThrows rate_limit_429]
    [CallThrows rate_limit_429] []
    (CallThrows rate_limit_429) (CallThrows rate_limit_text)
    (CallThrows rate_limit_429)
    rate_limit_429 rate_limit_text rate_limit_429 "429 Too Many Requests"
    (or_introl eq_refl) eq_refl eq_refl eq_refl eq_refl eq_refl eq_refl eq_refl
    eq_refl eq_refl eq_refl eq_refl) as H.
  cbv zeta in H. destruct H as (H & _). exact H.
Defined.

(** X3: for every handle that [initializeAIProvider] returns, the handler
    reaches a provider (the 'Unsupported AI provider' branch makes no
    call): between one and three calls are made.  For an "sk-or-" key
    every call is a chat completion for model "openai/gpt-4o-mini", for
    another "sk-" key for model "gpt-4o"; for an "AIza" key the trace is
    a single [generateContent] call to "gemini-1.5-flash-latest" with no
    sleep. *)
Theorem resolved_handle_reaches_provider
    (PS : Type) (create : chat_request -> PS -> attempt_outcome * PS)
    (generateContent : gemini_request -> PS -> attempt_outcome * PS)
    (apiKey : string) (h : ProviderHandle)
    (screenshotBase64 analysisType url : string) (s0 : PS) :
  Retrying.initializeAIProvider apiKey = Normal h ->
  let run := Retrying.perform_ai_analysis PS create generateContent h
               screenshotBase64 analysisType url (mkWorld s0 []) in
  (1 <= provider_calls (trace (snd run)) <= 3)%nat
  /\ (startsWith apiKey "sk-" = true ->
      exists req,
        Forall (chat_event req) (trace (snd run)) /\
        req_model req =
          (if startsWith apiKey "sk-or-" then "openai/gpt-4o-mini" else "gpt-4o") /\
        max_tokens req = 1500%Z)
  /\ (startsWith apiKey "sk-" = false ->
      exists req,
        trace (snd run) = [EvGenerate req] /\
        generative_model req = "gemini-1.5-flash-latest").
Proof.
  intros Hinit run.
  destruct (prompt_total analysisType) as [p Hp].
  assert (Hbounds : (type h =? "openai") || (type h =? "openrouter") = true ->
    (1 <= provider_calls (trace (snd run)) <= 3)%nat /\
    Forall (chat_event
              (Retrying.chat_request_of p screenshotBase64 analysisType url (model h)))
           (trace (snd run))).
  { intros Hd. unfold run, Retrying.perform_ai_analysis. rewrite Hd.
    unfold Retrying.analyzeWithOpenAI. rewrite Hp.
    change Retrying.maxRetries with 3%nat.
    pose proof (attempts_bounded PS create 3 None
      (Retrying.chat_request_of p screenshotBase64 analysisType url (model h))
      (mkWorld s0 [])) as Hu.
    pose proof (attempts_calls_at_least PS create 2 None
      (Retrying.chat_request_of p screenshotBase64 analysisType url (model h))
      (mkWorld s0 [])) as Hl.
    pose proof (attempts_events PS create 3 None
      (Retrying.chat_request_of p screenshotBase64 analysisType url (model h))
      (mkWorld s0 []) (Forall_nil _)) as He.
    destruct (Retrying.attempts PS create 3 None _ _) as [r w].
    destruct r; simpl in *; (split; [lia | exact He]). }
  destruct (resolved_handle_kinds apiKey h Hinit)
    as [(K1 & ->) | [(K1 & K2 & ->) | (K2 & K3 & ->)]].
  - destruct (Hbounds eq_refl) as [Hb He]. split; [exact Hb|]. split.
    + intros _. eexists. split; [exact He|]. rewrite K1. split; reflexivity.
    + intros K. apply (prefix_app_l "sk-" "or-") in K1.
      unfold startsWith in K. congruence.
  - destruct (Hbounds eq_refl) as [Hb He]. split; [exact Hb|]. split.
    + intros _. eexists. split; [exact He|]. rewrite K1. split; reflexivity.
    + intros K. congruence.
  - unfold run, Retrying.perform_ai_analysis. simpl.
    unfold Retrying.analyzeWithGemini, Retrying.call_generate. rewrite Hp. simpl.
    destruct (generateContent _ s0) as [o s]. destruct (parsed o); simpl;
    (split; [unfold provider_calls; simpl; lia|]; split;
     [intros K; congruence | intros _; eexists; split; reflexivity]).
Qed.

Lemma resolved_handle_reaches_provider_witness :
  (1 <= provider_calls (trace (snd
     (Retrying.perform_ai_analysis (list attempt_outcome) scripted scripted
        (mkHandle "gemini" (GoogleGenerativeAI "AIza_test_key") None)
        "iVBORw0KGgo=" "seo" "https://example.com"
        (mkWorld [ContentParses good_reply] [])))) <= 3)%nat.
Proof.
  pose proof (resolved_handle_reaches_provider (list attempt_outcome)
    scripted scripted "AIza_test_key"
    (mkHandle "gemini" (GoogleGenerativeAI "AIza_test_key") None)
    "iVBORw0KGgo=" "seo" "https://example.com"
    [ContentParses good_reply] eq_refl) as H.
  cbv zeta in H. destruct H as (H & _). exact H.
Defined.

(** X4: with a Gemini key a rate-limit error of the provider is not
    retried: after that single call, with no sleep, the handler reports
    'Rate limit exceeded ...' (the message mentioning neither "401" nor
    "authentication"). *)
Theorem gemini_rate_limit_not_retried
    (PS : Type) (create : chat_request -> PS -> attempt_outcome * PS)
    (generateContent : gemini_request -> PS -> attempt_outcome * PS)
    (apiKey : string) (h : ProviderHandle)
    (screenshotBase64 analysisType url : string) (s0 s1 : PS) (p : value)
    (e : js_error) :
  Retrying.initializeAIProvider apiKey = Normal h ->
  startsWith apiKey "sk-" = false ->
  prompt analysisType = Normal p ->
  generateContent
    (Retrying.gemini_request_of p screenshotBase64 analysisType url) s0
    = (CallThrows e, s1) ->
  Retrying.is_rate_limit e = true ->
  Retrying.mentions e "401" = false ->
  Retrying.mentions e "authentication" = false ->
  Retrying.perform_ai_analysis PS create generateContent h
    screenshotBase64 analysisType url (mkWorld s0 [])
  = (Throw (mkError "Error" (Some
       "Rate limit exceeded. Please try again in a few minutes or upgrade your API plan.")),
     mkWorld s1
       [EvGenerate (Retrying.gemini_request_of p screenshotBase64 analysisType url)]).
Proof.
  intros Hinit K Hp Hg Hr H1 H2.
  destruct (resolved_handle_kinds apiKey h Hinit)
    as [(K1 & ->) | [(K1 & K2 & ->) | (K2 & K3 & ->)]].
  - apply (prefix_app_l "sk-" "or-") in K1. unfold startsWith in K. congruence.
  - congruence.
  - unfold Retrying.perform_ai_analysis. simpl.
    unfold Retrying.analyzeWithGemini, Retrying.call_generate. rewrite Hp. simpl.
    rewrite Hg. simpl. unfold Retrying.surfaced. rewrite H1, H2. simpl.
    unfold Retrying.is_rate_limit in Hr. unfold Retrying.mentions.
    destruct (message e) as [m|]; [|discriminate]. rewrite Hr. reflexivity.
Qed.

Lemma gemini_rate_limit_not_retried_witness :
  Retrying.perform_ai_analysis (list attempt_outcome) scripted scripted
    (mkHandle "gemini" (GoogleGenerativeAI "AIza_test_key") None)
    "iVBORw0KGgo=" "seo" "https://example.com"
    (mkWorld [CallThrows rate_limit_429; ContentParses good_reply] [])
  = (Throw (mkError "Error" (Some
       "Rate limit exceeded. Please try again in a few minutes or upgrade your API plan.")),
     mkWorld [ContentParses good_reply]
       [EvGenerate (Retrying.gemini_request_of (VStr ANALYSIS_PROMPTS_seo)
                      "iVBORw0KGgo=" "seo" "https://example.com")]).
Proof.
  apply (gemini_rate_limit_not_retried (list attempt_outcome) scripted scripted
           "AIza_test_key" _ "iVBORw0KGgo=" "seo" "https://example.com"
           _ _ (VStr ANALYSIS_PROMPTS_seo) rate_limit_429); reflexivity.
Defined.

(** ** Start-up *)

Lemma resolver_failure_on_key (c : ascii) (rest : string) (e : js_error) :
  Retrying.initializeAIProvider (String c rest) = Throw e ->
  e = mkError "Error" (Some
        "Invalid API key format. Please provide a valid OpenAI (sk-...), OpenRouter (sk-or-...), or Gemini (AIza...) API key.").
Proof.
  unfold Retrying.initializeAIProvider.
  change (truthy (VStr (String c rest))) with true. simpl negb. cbv iota.
  destruct (startsWith _ "sk-or-"); [discriminate|].
  destruct (startsWith _ "sk-"); [discriminate|].
  destruct (startsWith _ "AIza"); [discriminate|].
  intros [= <-]. reflexivity.
Qed.

(** X5: [Actor.main] gets past its start-up checks exactly when the input
    exists, lists at least one URL and carries a key that the resolver
    accepts; the configuration then holds that key's handle and one crawl
    URL per entry.  Otherwise it throws one of four messages; a missing
    or empty key is reported by main's own check, so the resolver's
    'API Key is required' error is never the one wrapped in
    'Failed to initialize AI provider: ...'. *)
Theorem startup_checks (input : option Retrying.actor_input) :
  (forall cfg, Retrying.configure input = Normal cfg ->
     exists i urls apiKey,
       input = Some i /\ Retrying.in_startUrls i = Some urls /\ urls <> [] /\
       Retrying.in_apiKey i = Some apiKey /\
       Retrying.initializeAIProvider apiKey = Normal (Retrying.cfg_provider cfg) /\
       Retrying.cfg_urls cfg = map Retrying.crawl_url urls)
  /\
  (forall i urls apiKey h,
     input = Some i -> Retrying.in_startUrls i = Some urls -> urls <> [] ->
     Retrying.in_apiKey i = Some apiKey ->
     Retrying.initializeAIProvider apiKey = Normal h ->
     exists cfg, Retrying.configure input = Normal cfg /\
                 Retrying.cfg_provider cfg = h)
  /\
  (forall e, Retrying.configure input = Throw e ->
     In (message e)
       [ Some "No input provided. Please configure the actor with your API key and URLs to analyze.";
         Some "No URLs provided. Please add at least one URL to analyze.";
         Some "API Key is required. Please provide your OpenAI, OpenRouter, or Gemini API key.";
         Some "Failed to initialize AI provider: Invalid API key format. Please provide a valid OpenAI (sk-...), OpenRouter (sk-or-...), or Gemini (AIza...) API key." ]).
Proof.
  split; [|split].
  - intros cfg H. destruct input as [i|]; [|discriminate].
    unfold Retrying.configure in H.
    destruct (Retrying.in_startUrls i) as [urls|] eqn:Hu; [|discriminate].
    destruct urls as [|u urls]; [discriminate|].
    change ((length (u :: urls) =? 0)%nat) with false in H. cbv iota in H.
    destruct (Retrying.in_apiKey i) as [[|c rest]|] eqn:Hk; try discriminate.
    destruct (Retrying.initializeAIProvider (String c rest)) as [h|err] eqn:Hi;
      [|discriminate].
    injection H as <-. exists i, (u :: urls), (String c rest).
    repeat split; try assumption; try reflexivity. discriminate.
  - intros i urls apiKey h -> Hu Hne Hk Hi.
    unfold Retrying.configure. rewrite Hu, Hk.
    destruct urls as [|u urls]; [congruence|].
    change ((length (u :: urls) =? 0)%nat) with false. cbv iota.
    destruct apiKey as [|c rest]; [discriminate Hi|].
    rewrite Hi. eexists. split; reflexivity.
  - intros e H. destruct input as [i|];
      [|injection H as <-; simpl; tauto].
    unfold Retrying.configure in H.
    destruct (match Retrying.in_startUrls i with Some l => l | None => [] end)
      as [|u urls].
    { injection H as <-. simpl. tauto. }
    change ((length (u :: urls) =? 0)%nat) with false in H. cbv iota in H.
    destruct (Retrying.in_apiKey i) as [[|c rest]|];
      try (injection H as <-; simpl; tauto).
    destruct (Retrying.initializeAIProvider (String c rest)) as [h|err] eqn:Hi;
      [discriminate|].
    apply resolver_failure_on_key in Hi. subst err.
    injection H as <-. simpl. tauto.
Qed.

Lemma startup_checks_witness :
  exists cfg,
    Retrying.configure (Some (Retrying.mkInput
       (Some [Retrying.UrlObject [("url", VStr "https://example.com")];
              Retrying.UrlString "https://apify.com"])
       (Some "AIza_test_key") None (Some "mobile") None)) = Normal cfg /\
    Retrying.cfg_provider cfg
      = mkHandle "gemini" (GoogleGenerativeAI "AIza_test_key") None.
Proof.
  destruct (startup_checks (Some (Retrying.mkInput
       (Some [Retrying.UrlObject [("url", VStr "https://example.com")];
              Retrying.UrlString "https://apify.com"])
       (Some "AIza_test_key") None (Some "mobile") None))) as (_ & H & _).
  apply (H _ _ "AIza_test_key" _ eq_refl eq_refl); [discriminate | reflexivity | reflexivity].
Defined.

(** * Heuristic analyzers of the retrying revision *)

(** X6: when the page evaluation succeeds, [analyzePerformance] always
    scores 10, whatever the counts: [Object.assign] stores the counts
    under the callback's camel-case names, so [image_count],
    [script_count] and [stylesheet_count], which the penalties read,
    are still 0.  When the evaluation throws the score stays 0. *)
Theorem performance_score_ignores_counts (d : Retrying.perfData) (e : js_error) :
  own_prop (Retrying.analyzePerformance (Normal d)) "performance_score"
    = Some (VInt 10) /\
  own_prop (Retrying.analyzePerformance (Normal d)) "image_count"
    = Some (VInt 0) /\
  own_prop (Retrying.analyzePerformance (Normal d)) "script_count"
    = Some (VInt 0) /\
  own_prop (Retrying.analyzePerformance (Normal d)) "stylesheet_count"
    = Some (VInt 0) /\
  own_prop (Retrying.analyzePerformance (Normal d)) "imageCount"
    = Some (VInt (Retrying.imageCount d)) /\
  own_prop (Retrying.analyzePerformance (Normal d)) "scriptCount"
    = Some (VInt (Retrying.scriptCount d)) /\
  own_prop (Retrying.analyzePerformance (Normal d)) "stylesheetCount"
    = Some (VInt (Retrying.stylesheetCount d)) /\
  own_prop (Retrying.analyzePerformance (Throw e)) "performance_score"
    = Some (VInt 0).
Proof. repeat split. Qed.

(** X7: when the page evaluation succeeds, the accessibility score is
    10 minus 2 for each recorded violation and minus 1 when the page has
    no heading, hence between 5 and 10; "missing-alt-text" is recorded
    exactly when some image lacks an alt text and
    "unlabeled-form-controls" exactly when some control lacks a label. *)
Theorem accessibility_score_and_violations (d : Retrying.a11yData) :
  exists score violations,
    own_prop (Retrying.analyzeAccessibility (Normal d)) "accessibility_score"
      = Some (VInt score) /\
    own_prop (Retrying.analyzeAccessibility (Normal d)) "wcag_violations"
      = Some (VArr violations) /\
    (5 <= score <= 10)%Z /\
    score = (10 - 2 * Z.of_nat (length violations)
             - (if (length (Retrying.headingStructure d) =? 0)%nat then 1 else 0))%Z /\
    (In (VStr "missing-alt-text") violations
       <-> (0 < Retrying.imagesWithoutAlt d)%Z) /\
    (In (VStr "unlabeled-form-controls") violations
       <-> (0 < Retrying.formsWithoutLabels d)%Z) /\
    own_prop (Retrying.analyzeAccessibility (Normal d)) "alt_text_missing"
      = Some (VInt (Retrying.imagesWithoutAlt d)).
Proof.
  unfold Retrying.analyzeAccessibility. cbv zeta.
  destruct (Z.gtb_spec (Retrying.imagesWithoutAlt d) 0) as [Hi|Hi];
  destruct (Z.gtb_spec (Retrying.formsWithoutLabels d) 0) as [Hf|Hf];
  destruct (length (Retrying.headingStructure d)) as [|n]; simpl;
    eexists; eexists;
    (split; [reflexivity|]); (split; [reflexivity|]);
    (split; [lia|]); (split; [reflexivity|]);
    (split; [|split; [|reflexivity]]); simpl;
    (split; [intros H; repeat (destruct H as [H|H]; try discriminate H);
             (lia || contradiction)
            | intros H; (tauto || lia)]).
Qed.

(** X8: when the page evaluation succeeds, the mobile score is 10, minus
    3 without a viewport meta tag, minus 2 with more than five small
    touch targets, so it is one of 5, 7, 8, 10 and at most 7 without the
    tag; for a non-negative count of small targets the touch-target
    score lies between 1 and 10, and an issue is listed exactly when the
    count is positive. *)
Theorem mobile_score_values (d : Retrying.mobileData) :
  (0 <= Retrying.smallButtons d)%Z ->
  exists score touch issues,
    own_prop (Retrying.analyzeMobileResponsiveness (Normal d)) "mobile_score"
      = Some (VInt score) /\
    own_prop (Retrying.analyzeMobileResponsiveness (Normal d))
      "touch_target_compliance" = Some (VInt touch) /\
    own_prop (Retrying.analyzeMobileResponsiveness (Normal d))
      "mobile_specific_issues" = Some (VArr issues) /\
    (score = 5 \/ score = 7 \/ score = 8 \/ score = 10)%Z /\
    (Retrying.viewportMeta d = false -> score <= 7)%Z /\
    (score = 10 <->
       Retrying.viewportMeta d = true /\ Retrying.smallButtons d <= 5)%Z /\
    (1 <= touch <= 10)%Z /\
    (issues = [] <-> Retrying.smallButtons d = 0)%Z /\
    (0 < Retrying.smallButtons d ->
     issues = [VStr (decimal (Retrying.smallButtons d)
                     ++ " touch targets smaller than 44px")])%Z.
Proof.
  intros Hs. unfold Retrying.analyzeMobileResponsiveness. cbv zeta.
  destruct (Retrying.viewportMeta d);
  destruct (Z.gtb_spec (Retrying.smallButtons d) 5) as [H5|H5];
  destruct (Z.gtb_spec (Retrying.smallButtons d) 0) as [H0|H0];
    try lia; cbn [negb]; cbv iota;
    eexists; eexists; eexists;
    (split; [reflexivity|]); (split; [reflexivity|]); (split; [reflexivity|]);
    (split; [lia|]);
    (split; [intros; (lia || discriminate)|]);
    (split; [split; [intros; (split; [reflexivity || discriminate | lia]) || lia
                    | intros [? ?]; (reflexivity || discriminate || lia)]|]);
    (split; [lia|]);
    (split; [split; [intros; (discriminate || lia) | intros; (reflexivity || lia)]|]);
    intros; (reflexivity || lia).
Qed.

Lemma mobile_score_values_witness :
  exists score touch issues,
    own_prop (Retrying.analyzeMobileResponsiveness
                (Normal (Retrying.mkMobileData false 12 "hamburger")))
      "mobile_score" = Some (VInt score) /\
    own_prop (Retrying.analyzeMobileResponsiveness
                (Normal (Retrying.mkMobileData false 12 "hamburger")))
      "touch_target_compliance" = Some (VInt touch) /\
    own_prop (Retrying.analyzeMobileResponsiveness
                (Normal (Retrying.mkMobileData false 12 "hamburger")))
      "mobile_specific_issues" = Some (VArr issues) /\
    (score <= 7)%Z /\
    issues = [VStr "12 touch targets smaller than 44px"].
Proof.
  destruct (mobile_score_values (Retrying.mkMobileData false 12 "hamburger"))
    as (score & touch & issues & H1 & H2 & H3 & _ & H4 & _ & _ & _ & H5).
  - simpl. lia.
  - exists score, touch, issues.
    split; [exact H1|]. split; [exact H2|]. split; [exact H3|].
    split; [apply H4; reflexivity|]. apply H5. simpl. lia.
Defined.

(** X9: when the page evaluation succeeds, the content score is 5, plus
    2 above 300 words, plus 1 above three headings, plus 1 with a
    call-to-action element, plus 1 with a social-proof element; it lies
    between 5 and 10 without the cap at 10 ever cutting anything, and is
    10 exactly when all four bonuses apply.  The readability score lies
    between 1 and 10, is 10 from 950 words on and 1 below 150 words. *)
Theorem content_score_values (d : Retrying.contentData) :
  exists score readability,
    own_prop (Retrying.analyzeContent (Normal d)) "content_score"
      = Some (VInt score) /\
    own_prop (Retrying.analyzeContent (Normal d)) "readability_score"
      = Some (VInt readability) /\
    own_prop (Retrying.analyzeContent (Normal d)) "word_count"
      = Some (VInt (Z.of_nat (length (Retrying.words d)))) /\
    (5 <= score <= 10)%Z /\
    score = (5 + (if (Z.of_nat (length (Retrying.words d)) >? 300)%Z then 2 else 0)
               + (if (Retrying.headings d >? 3)%Z then 1 else 0)
               + (if (Retrying.ctaButtons d >? 0)%Z then 1 else 0)
               + (if (0 <? length (Retrying.socialProof d))%nat then 1 else 0))%Z /\
    (score = 10%Z <->
       (300 < length (Retrying.words d))%nat /\ (3 < Retrying.headings d)%Z /\
       (0 < Retrying.ctaButtons d)%Z /\ Retrying.socialProof d <> []) /\
    (1 <= readability <= 10)%Z /\
    (readability = 10%Z <-> (950 <= length (Retrying.words d))%nat) /\
    (readability = 1%Z <-> (length (Retrying.words d) < 150)%nat).
Proof.
  unfold Retrying.analyzeContent. cbv zeta.
  eexists; eexists.
  split; [reflexivity|]. split; [reflexivity|]. split; [reflexivity|].
  assert (Hsp : (0 <? length (Retrying.socialProof d))%nat = true
                <-> Retrying.socialProof d <> []).
  { destruct (Retrying.socialProof d); simpl; split; intros H;
      first [reflexivity | discriminate | congruence]. }
  destruct (Z.gtb_spec (Z.of_nat (length (Retrying.words d))) 300);
  destruct (Z.gtb_spec (Retrying.headings d) 3);
  destruct (Z.gtb_spec (Retrying.ctaButtons d) 0);
  destruct (0 <? length (Retrying.socialProof d))%nat;
    (split; [lia|]); (split; [lia|]);
    (split; [split; [intros; try lia; repeat split; try lia;
                     apply Hsp; reflexivity
                    | intros (? & ? & ? & Hn); try lia;
                      apply Hsp in Hn; discriminate]|]);
    unfold Retrying.round_hundredth;
    (split; [lia|]); split; split; intros;
    Z.to_euclidean_division_equations; lia.
Qed.

Lemma conversion_callback_lengths (page : Retrying.conversion_page) :
  (length (Retrying.trustSignals (Retrying.conversion_callback page)) <= 4)%nat /\
  (length (Retrying.urgencyElements (Retrying.conversion_callback page)) <= 3)%nat /\
  (length (Retrying.frictionPoints (Retrying.conversion_callback page)) <= 2)%nat /\
  Retrying.conv_ctaButtons (Retrying.conversion_callback page)
    = Retrying.cta_elements page /\
  Retrying.conv_forms (Retrying.conversion_callback page)
    = Retrying.form_elements page.
Proof.
  unfold Retrying.conversion_callback. cbv zeta. simpl.
  repeat split.
  - destruct (Retrying.has_secure_class page),
             (Retrying.has_testimonial_class page),
             (Retrying.has_guarantee_class page),
             (Retrying.has_badge_class page); simpl; lia.
  - destruct (_ || _), (_ && _), (_ || _); simpl; lia.
  - destruct (_ >? _)%Z, (_ && _); simpl; lia.
Qed.

(** X10: when the page evaluation succeeds and the count of
    call-to-action elements is not negative, the conversion score is
    5 + min(2, CTAs) + min(2, trust signals) + min(1, urgency elements)
    - friction points, and because the callback records at most two
    friction points it lies between 3 and 10 without either clamp
    cutting anything; the form score is 6, 8 or 10. *)
Theorem conversion_score_values (page : Retrying.conversion_page) :
  (0 <= Retrying.cta_elements page)%Z ->
  exists score form_score,
    own_prop (Retrying.analyzeConversion (Normal page)) "conversion_score"
      = Some (VInt score) /\
    own_prop (Retrying.analyzeConversion (Normal page)) "form_optimization_score"
      = Some (VInt form_score) /\
    (3 <= score <= 10)%Z /\
    score =
      (5 + Z.min 2 (Retrying.cta_elements page)
         + Z.min 2 (Z.of_nat (length (Retrying.trustSignals
                                        (Retrying.conversion_callback page))))
         + Z.min 1 (Z.of_nat (length (Retrying.urgencyElements
                                        (Retrying.conversion_callback page))))
         - Z.of_nat (length (Retrying.frictionPoints
                               (Retrying.conversion_callback page))))%Z /\
    (form_score = 6 \/ form_score = 8 \/ form_score = 10)%Z.
Proof.
  intros Hc.
  destruct (conversion_callback_lengths page) as (Ht & Hu & Hf & Ec & Ef).
  unfold Retrying.analyzeConversion. cbv zeta.
  rewrite Ec, Ef.
  eexists; eexists.
  split; [reflexivity|]. split; [reflexivity|].
  split; [lia|]. split; [lia|].
  destruct (Retrying.form_elements page >? 0)%Z; lia.
Qed.

Lemma conversion_score_values_witness :
  exists score form_score,
    own_prop (Retrying.analyzeConversion (Normal
       (Retrying.mkConversionPage 3 1 false true false false
          "sign up today only" 7 true false))) "conversion_score"
      = Some (VInt score) /\
    own_prop (Retrying.analyzeConversion (Normal
       (Retrying.mkConversionPage 3 1 false true false false
          "sign up today only" 7 true false))) "form_optimization_score"
      = Some (VInt form_score) /\
    (3 <= score <= 10)%Z.
Proof.
  destruct (conversion_score_values
    (Retrying.mkConversionPage 3 1 false true false false
       "sign up today only" 7 true false)) as (s & f & H1 & H2 & H3 & _).
  - simpl. lia.
  - exists s, f. split; [exact H1|]. split; [exact H2|]. exact H3.
Defined.

(** X11: when the page evaluation succeeds, the SEO score lies between 2
    and 10 whatever the rounded alt-text percentage is; "title" and
    "meta-description" are listed as missing exactly when the respective
    text is null or empty, which costs 3 and 2 points; a page without
    images counts as 100 percent alt coverage, so with a title, a
    description and an h1 heading it scores 10. *)
Theorem seo_score_values (rounded_percentage : Z -> Z -> Z) (d : Retrying.seoData) :
  exists score tags,
    own_prop (Retrying.analyzeSEO rounded_percentage (Normal d)) "seo_score"
      = Some (VInt score) /\
    own_prop (Retrying.analyzeSEO rounded_percentage (Normal d)) "missing_meta_tags"
      = Some (VArr tags) /\
    (2 <= score <= 10)%Z /\
    (In (VStr "title") tags <-> Retrying.missing (Retrying.seo_title d) = true) /\
    (In (VStr "meta-description") tags
       <-> Retrying.missing (Retrying.seo_description d) = true) /\
    (score <= 10 - (if Retrying.missing (Retrying.seo_title d) then 3 else 0)
                 - (if Retrying.missing (Retrying.seo_description d) then 2 else 0))%Z /\
    ((Retrying.totalImages d <= 0)%Z ->
       own_prop (Retrying.analyzeSEO rounded_percentage (Normal d))
         "image_alt_optimization" = Some (VInt 100) /\
       (tags = [] -> Retrying.h1Tags d <> [] -> score = 10%Z)).
Proof.
  unfold Retrying.analyzeSEO. cbv zeta.
  destruct (Retrying.missing (Retrying.seo_title d));
  destruct (Retrying.missing (Retrying.seo_description d));
  destruct (Retrying.h1Tags d) as [|h1 rest];
  destruct (Z.gtb_spec (Retrying.totalImages d) 0) as [Hi|Hi];
  cbn [length Nat.eqb app]; cbv iota;
  try change (100 <? 80)%Z with false;
  try match goal with
  | |- context [(?x <? 80)%Z] => destruct (x <? 80)%Z
  end; cbv iota;
    eexists; eexists;
    (split; [reflexivity|]); (split; [reflexivity|]);
    (split; [lia|]);
    (split; [simpl; split; intros H;
             first [reflexivity | discriminate
                   | repeat (destruct H as [H|H]; try discriminate H);
                     contradiction
                   | tauto]|]);
    (split; [simpl; split; intros H;
             first [reflexivity | discriminate
                   | repeat (destruct H as [H|H]; try discriminate H);
                     contradiction
                   | tauto]|]);
    (split; [lia|]);
    intros Hz; try lia;
    (split; [reflexivity|]); intros Ht Hh;
    first [reflexivity | discriminate Ht | congruence].
Qed.

(** ** The heuristic scores in the persisted record *)

Lemma comprehensive_scores (ctx : Retrying.page_context) (ai r : value) :
  Retrying.auditResult ctx ai = Normal r ->
  exists scores,
    field r "scores" = Some scores /\
    field scores "performance"
      = Some (prop (Retrying.performance ctx) "performance_score") /\
    field scores "accessibility"
      = Some (prop (Retrying.accessibility ctx) "accessibility_score") /\
    field scores "mobile" = Some (prop (Retrying.mobile ctx) "mobile_score") /\
    field scores "seo" = Some (prop (Retrying.seo ctx) "seo_score") /\
    field scores "content" = Some (prop (Retrying.content ctx) "content_score") /\
    field scores "conversion"
      = Some (prop (Retrying.conversion ctx) "conversion_score").
Proof.
  intros H. pose proof (comprehensive_record_needs_reply ctx ai r H) as Hn.
  unfold Retrying.auditResult in H. rewrite !get_prop_object in H.
  destruct (get_prop_total ai "score" Hn) as [r1 E1].
  destruct (get_prop_total ai "summary" Hn) as [r2 E2].
  destruct (get_prop_total ai "color_palette" Hn) as [r3 E3].
  destruct (get_prop_total ai "design_flaws" Hn) as [r4 E4].
  destruct (get_prop_total ai "positive_aspects" Hn) as [r5 E5].
  destruct (get_prop_total ai "recommendations" Hn) as [r6 E6].
  rewrite E1, E2, E3, E4, E5, E6 in H. cbv beta iota delta [bind] in H.
  injection H as <-. eexists. repeat split.
Qed.

Lemma performance_score_range (ev : completion Retrying.perfData) :
  exists n, prop (Retrying.analyzePerformance ev) "performance_score" = VInt n /\
            (0 <= n <= 10)%Z.
Proof. destruct ev; eexists; (split; [reflexivity|simpl; lia]). Qed.

Lemma accessibility_score_range (ev : completion Retrying.a11yData) :
  exists n, prop (Retrying.analyzeAccessibility ev) "accessibility_score" = VInt n /\
            (0 <= n <= 10)%Z.
Proof.
  destruct ev as [d|e]; [|eexists; split; [reflexivity|lia]].
  unfold Retrying.analyzeAccessibility. cbv zeta.
  destruct (_ >? 0)%Z, (_ >? 0)%Z, (_ =? 0)%nat;
    eexists; (split; [reflexivity|lia]).
Qed.

Lemma mobile_score_range (ev : completion Retrying.mobileData) :
  exists n, prop (Retrying.analyzeMobileResponsiveness ev) "mobile_score" = VInt n /\
            (0 <= n <= 10)%Z.
Proof.
  destruct ev as [d|e]; [|eexists; split; [reflexivity|lia]].
  unfold Retrying.analyzeMobileResponsiveness. cbv zeta.
  destruct (Retrying.viewportMeta d), (_ >? 5)%Z, (_ >? 0)%Z; cbn [negb]; cbv iota;
    eexists; (split; [reflexivity|lia]).
Qed.

Lemma seo_score_range (rounded_percentage : Z -> Z -> Z)
    (ev : completion Retrying.seoData) :
  exists n, prop (Retrying.analyzeSEO rounded_percentage ev) "seo_score" = VInt n /\
            (0 <= n <= 10)%Z.
Proof.
  destruct ev as [d|e]; [|eexists; split; [reflexivity|lia]].
  unfold Retrying.analyzeSEO. cbv zeta.
  destruct (Retrying.missing (Retrying.seo_title d)),
           (Retrying.missing (Retrying.seo_description d)),
           (_ =? 0)%nat, (_ <? 80)%Z;
    eexists; (split; [reflexivity|lia]).
Qed.

Lemma content_score_range (ev : completion Retrying.contentData) :
  exists n, prop (Retrying.analyzeContent ev) "content_score" = VInt n /\
            (0 <= n <= 10)%Z.
Proof.
  destruct ev as [d|e]; [|eexists; split; [reflexivity|lia]].
  unfold Retrying.analyzeContent. cbv zeta.
  destruct (_ >? 300)%Z, (_ >? 3)%Z, (_ >? 0)%Z, (0 <? _)%nat;
    eexists; (split; [reflexivity|lia]).
Qed.

Lemma conversion_score_range (ev : completion Retrying.conversion_page) :
  exists n, prop (Retrying.analyzeConversion ev) "conversion_score" = VInt n /\
            (0 <= n <= 10)%Z.
Proof.
  destruct ev as [d|e]; [|eexists; split; [reflexivity|lia]].
  unfold Retrying.analyzeConversion. cbv zeta.
  eexists; (split; [reflexivity|lia]).
Qed.

(** X12: when the six metric objects of a page come from the analyzers
    (each evaluation having succeeded or thrown), the [scores] object of
    the persisted record holds, for performance, accessibility, mobile,
    seo, content and conversion, an integer between 0 and 10. *)
Theorem heuristic_scores_in_range
    (rounded_percentage : Z -> Z -> Z)
    (ev1 : completion Retrying.perfData) (ev2 : completion Retrying.a11yData)
    (ev3 : completion Retrying.mobileData) (ev4 : completion Retrying.seoData)
    (ev5 : completion Retrying.contentData)
    (ev6 : completion Retrying.conversion_page)
    (ctx : Retrying.page_context) (ai r : value) :
  Retrying.performance ctx = Retrying.analyzePerformance ev1 ->
  Retrying.accessibility ctx = Retrying.analyzeAccessibility ev2 ->
  Retrying.mobile ctx = Retrying.analyzeMobileResponsiveness ev3 ->
  Retrying.seo ctx = Retrying.analyzeSEO rounded_percentage ev4 ->
  Retrying.content ctx = Retrying.analyzeContent ev5 ->
  Retrying.conversion ctx = Retrying.analyzeConversion ev6 ->
  Retrying.auditResult ctx ai = Normal r ->
  exists scores,
    field r "scores" = Some scores /\
    forall k,
      In k ["performance"; "accessibility"; "mobile"; "seo"; "content";
            "conversion"] ->
      exists n, field scores k = Some (VInt n) /\ (0 <= n <= 10)%Z.
Proof.
  intros H1 H2 H3 H4 H5 H6 H.
  destruct (comprehensive_scores ctx ai r H)
    as (scores & Hs & S1 & S2 & S3 & S4 & S5 & S6).
  rewrite H1 in S1. rewrite H2 in S2. rewrite H3 in S3.
  rewrite H4 in S4. rewrite H5 in S5. rewrite H6 in S6.
  destruct (performance_score_range ev1) as (n1 & E1 & B1).
  destruct (accessibility_score_range ev2) as (n2 & E2 & B2).
  destruct (mobile_score_range ev3) as (n3 & E3 & B3).
  destruct (seo_score_range rounded_percentage ev4) as (n4 & E4 & B4).
  destruct (content_score_range ev5) as (n5 & E5 & B5).
  destruct (conversion_score_range ev6) as (n6 & E6 & B6).
  rewrite E1 in S1. rewrite E2 in S2. rewrite E3 in S3.
  rewrite E4 in S4. rewrite E5 in S5. rewrite E6 in S6.
  exists scores. split; [exact Hs|].
  intros k Hk. simpl in Hk.
  repeat (destruct Hk as [<-|Hk]; [eauto|]). contradiction.
Qed.

Lemma heuristic_scores_in_range_witness :
  exists r scores,
    Retrying.auditResult analyzed_context good_reply = Normal r /\
    field r "scores" = Some scores /\
    forall k,
      In k ["performance"; "accessibility"; "mobile"; "seo"; "content";
            "conversion"] ->
      exists n, field scores k = Some (VInt n) /\ (0 <= n <= 10)%Z.
Proof.
  eexists.
  destruct (heuristic_scores_in_range sample_rounding _ _ _ _ _ _
              analyzed_context good_reply _
              eq_refl eq_refl eq_refl eq_refl eq_refl eq_refl eq_refl)
    as (scores & Hs & Hk).
  exists scores. split; [reflexivity|]. split; [exact Hs | exact Hk].
Defined.

(** * The free-tier revision: provider, usage tracker, request handler *)

(** X13: the usage tracker lets a page through exactly while something
    remains; one increment lowers the remaining count by one while it is
    positive and leaves it at 0 afterwards; for a count that is not
    negative the remaining count lies between 0 and the limit. *)
Theorem usage_tracker_accounting (t : FreeTier.usageTracker) :
  (FreeTier.canProcess t = true <-> (0 < FreeTier.getRemaining t)%Z) /\
  (FreeTier.canProcess t = true ->
     FreeTier.getRemaining (FreeTier.increment t)
       = (FreeTier.getRemaining t - 1)%Z) /\
  (FreeTier.canProcess t = false ->
     FreeTier.getRemaining t = 0%Z /\
     FreeTier.getRemaining (FreeTier.increment t) = 0%Z) /\
  ((0 <= FreeTier.count t)%Z ->
     (0 <= FreeTier.getRemaining t)%Z /\
     (FreeTier.getRemaining t <= Z.max 0 (FreeTier.limit t))%Z).
Proof.
  unfold FreeTier.canProcess, FreeTier.getRemaining, FreeTier.increment.
  destruct t as [c l]. simpl.
  destruct (Z.ltb_spec c l); repeat split; intros; try lia; try discriminate.
Qed.

Lemma usage_tracker_accounting_witness :
  FreeTier.getRemaining
    (FreeTier.increment (FreeTier.mkTracker 4 FreeTier.FREE_TIER_DAILY_LIMIT))
  = (FreeTier.getRemaining
       (FreeTier.mkTracker 4 FreeTier.FREE_TIER_DAILY_LIMIT) - 1)%Z.
Proof.
  destruct (usage_tracker_accounting
              (FreeTier.mkTracker 4 FreeTier.FREE_TIER_DAILY_LIMIT))
    as (_ & H & _).
  apply H. reflexivity.
Defined.

(** X14: with [useFreeMode] set, [initializeAIProvider] ignores the
    supplied key: the handle is the OpenRouter one built on the built-in
    key with the free model.  Yet the free-tier limit is switched on only
    when no key is supplied, so a run with [useFreeMode] and any
    non-empty key uses the built-in key without the limit. *)
Theorem free_mode_ignores_supplied_key
    (FREE_TIER_OPENROUTER_KEY : string) (apiKey : option string) :
  FreeTier.initializeAIProvider FREE_TIER_OPENROUTER_KEY apiKey true
    = Normal (mkHandle "openrouter"
                (OpenAI FREE_TIER_OPENROUTER_KEY
                   (Some "https://openrouter.ai/api/v1")
                   [ ("HTTP-Referer", "https://apify.com/");
                     ("X-Title", "Apify UI/UX Auditor") ])
                (Some "google/gemini-2.0-flash-exp:free"))
  /\
  (forall h,
     FreeTier.initializeAIProvider FREE_TIER_OPENROUTER_KEY apiKey true
       = Normal h ->
     FreeTier.free_mode h apiKey true
       = match apiKey with
         | None | Some "" => true
         | Some _ => false
         end)
  /\
  (forall h useFreeMode,
     FreeTier.initializeAIProvider FREE_TIER_OPENROUTER_KEY apiKey useFreeMode
       = Normal h ->
     FreeTier.free_mode h apiKey useFreeMode = true ->
     useFreeMode = true /\ (apiKey = None \/ apiKey = Some "")).
Proof.
  split; [reflexivity|]. split.
  - intros h [= <-]. reflexivity.
  - intros h useFreeMode _ H. unfold FreeTier.free_mode in H.
    apply andb_true_iff in H. destruct H as [H Hk].
    apply andb_true_iff in H. destruct H as [_ Hu].
    split; [exact Hu|].
    destruct apiKey as [[|c rest]|]; auto; discriminate.
Qed.

Lemma free_mode_ignores_supplied_key_witness :
  FreeTier.free_mode
    (mkHandle "openrouter"
       (OpenAI "built-in" (Some "https://openrouter.ai/api/v1")
          [ ("HTTP-Referer", "https://apify.com/");
            ("X-Title", "Apify UI/UX Auditor") ])
       (Some "google/gemini-2.0-flash-exp:free"))
    (Some "AIza_test_key") true = false.
Proof.
  destruct (free_mode_ignores_supplied_key "built-in" (Some "AIza_test_key"))
    as (_ & H & _).
  apply (H _ eq_refl).
Defined.

Section FreeTierHandler.

Variable PS : Type.
Variable create : chat_request -> PS -> attempt_outcome * PS.
Variable generate : FreeTier.gemini_json_request -> PS -> attempt_outcome * PS.



End FreeTierHandler.

Lemma completed_snoc (dataset : list value) (record : value) :
  completed (dataset ++ [record])
  = (completed dataset
     + match field record "status" with None => 1 | Some _ => 0 end)%nat.
Proof.
  unfold completed. rewrite filter_app, length_app. simpl.
  destruct (field record "status"); reflexivity.
Qed.





(** * The dashboard generator and the records it reads *)

Lemma Qle_bool_mono (n a b : Q) :
  (a <= b)%Q -> Qle_bool n a = true -> Qle_bool n b = true.
Proof.
  intros Hab Hn. apply Qle_bool_iff. apply Qle_bool_iff in Hn.
  apply (Qle_trans _ a); assumption.
Qed.

(** X17: [getScoreClass] is monotone: a higher score never gets a worse
    class; the class is "excellent" exactly from 8, "poor" exactly below
    4. *)
Theorem score_class_monotone (a b : Q) :
  (a <= b)%Q ->
  (class_rank (Dashboard.getScoreClass a)
     <= class_rank (Dashboard.getScoreClass b))%nat /\
  (Dashboard.getScoreClass a = "excellent" <-> (8 <= a)%Q) /\
  (Dashboard.getScoreClass a = "poor" <-> (a < 4)%Q).
Proof.
  intros Hab. unfold Dashboard.getScoreClass.
  pose proof (Qle_bool_mono 8 a b Hab) as M8.
  pose proof (Qle_bool_mono 6 a b Hab) as M6.
  pose proof (Qle_bool_mono 4 a b Hab) as M4.
  assert (H86 : Qle_bool 8 a = true -> Qle_bool 6 a = true).
  { intros H. apply Qle_bool_iff. apply Qle_bool_iff in H.
    apply (Qle_trans _ 8); [discriminate | exact H]. }
  assert (H64 : Qle_bool 6 a = true -> Qle_bool 4 a = true).
  { intros H. apply Qle_bool_iff. apply Qle_bool_iff in H.
    apply (Qle_trans _ 6); [discriminate | exact H]. }
  split; [|split].
  - destruct (Qle_bool 8 a) eqn:A8; [rewrite (M8 eq_refl); unfold class_rank; simpl; lia|].
    destruct (Qle_bool 6 a) eqn:A6;
      [rewrite (M6 eq_refl); destruct (Qle_bool 8 b); unfold class_rank; simpl; lia|].
    destruct (Qle_bool 4 a) eqn:A4;
      [rewrite (M4 eq_refl); destruct (Qle_bool 8 b), (Qle_bool 6 b); unfold class_rank; simpl; lia|].
    unfold class_rank. simpl. lia.
  - destruct (Qle_bool 8 a) eqn:E8.
    + apply Qle_bool_iff in E8. tauto.
    + assert (~ (8 <= a)%Q).
      { intros H. apply Qle_bool_iff in H. congruence. }
      destruct (Qle_bool 6 a), (Qle_bool 4 a); split; intros; try discriminate; tauto.
  - destruct (Qle_bool 4 a) eqn:E4.
    + assert (H4 : (4 <= a)%Q) by (apply Qle_bool_iff; exact E4).
      destruct (Qle_bool 8 a), (Qle_bool 6 a); split; intros H;
        try discriminate; exfalso; apply (Qlt_not_le _ _ H); exact H4.
    + assert (Hlt : (a < 4)%Q).
      { apply Qnot_le_lt. intros H. apply Qle_bool_iff in H. congruence. }
      destruct (Qle_bool 8 a) eqn:E8; [specialize (H86 eq_refl)|];
      destruct (Qle_bool 6 a) eqn:E6;
        try (specialize (H64 eq_refl)); try discriminate; tauto.
Qed.

Lemma score_class_monotone_witness :
  (class_rank (Dashboard.getScoreClass (15 # 2))
     <= class_rank (Dashboard.getScoreClass 8))%nat.
Proof.
  destruct (score_class_monotone (15 # 2) 8) as (H & _).
  - discriminate.
  - exact H.
Defined.

(** X18: the overall score that a dashboard card shows for a
    comprehensive record is the score of the provider's reply when that
    is truthy and 0 otherwise; for a flat record of the free-tier
    revision, which has neither [overall_score] nor [scores], it is
    always 0. *)
Theorem dashboard_overall_score
    (ctxR : Retrying.page_context) (ctxF : FreeTier.page_context)
    (ai rR rF : value) :
  Retrying.auditResult ctxR ai = Normal rR ->
  FreeTier.auditResult ctxF ai = Normal rF ->
  exists score,
    get_prop ai "score" = Normal score /\
    Dashboard.overallScore rR = Normal (js_or score (VNum 0)) /\
    Dashboard.overallScore rF = Normal (VNum 0).
Proof.
  intros HR HF.
  pose proof (flat_record_needs_reply ctxF ai rF HF) as Hn.
  unfold Retrying.auditResult in HR. rewrite !get_prop_object in HR.
  unfold FreeTier.auditResult in HF.
  destruct (get_prop_total ai "score" Hn) as [r1 E1].
  destruct (get_prop_total ai "summary" Hn) as [r2 E2].
  destruct (get_prop_total ai "color_palette" Hn) as [r3 E3].
  destruct (get_prop_total ai "design_flaws" Hn) as [r4 E4].
  destruct (get_prop_total ai "positive_aspects" Hn) as [r5 E5].
  destruct (get_prop_total ai "recommendations" Hn) as [r6 E6].
  rewrite E1, E2, E3, E4, E5, E6 in HR, HF.
  cbv beta iota delta [bind] in HR, HF.
  injection HR as <-. injection HF as <-.
  exists r1. split; [exact E1|]. split; [|reflexivity].
  unfold Dashboard.overallScore. simpl get_prop. cbv beta iota delta [bind].
  unfold js_or. destruct (truthy r1) eqn:T1.
  - rewrite T1. reflexivity.
  - reflexivity.
Qed.

Lemma dashboard_overall_score_witness :
  exists rR rF score,
    Retrying.auditResult sample_comprehensive_context good_reply = Normal rR /\
    FreeTier.auditResult sample_flat_context good_reply = Normal rF /\
    get_prop good_reply "score" = Normal score /\
    Dashboard.overallScore rR = Normal (js_or score (VNum 0)) /\
    Dashboard.overallScore rF = Normal (VNum 0).
Proof.
  eexists. eexists.
  destruct (dashboard_overall_score sample_comprehensive_context
              sample_flat_context good_reply _ _ eq_refl eq_refl)
    as (score & H1 & H2 & H3).
  exists score. split; [reflexivity|]. split; [reflexivity|].
  split; [exact H1|]. split; [exact H2 | exact H3].
Defined.

Lemma own_prop_set_prop_same (props : list (string * value)) (key : string)
    (v : value) :
  own_prop (set_prop props key v) key = Some v.
Proof.
  induction props as [|[k x] rest IH]; simpl.
  - rewrite String.eqb_refl. reflexivity.
  - destruct (k =? key) eqn:E; simpl; rewrite E; [reflexivity | exact IH].
Qed.

(** X19: of the records a page leaves in the dataset, the dashboard's
    filter keeps the comprehensive record and a FAILED record and drops
    the flattened copy, whatever its other properties are; the FAILED
    record, having no score, gets a card with overall score 0. *)
Theorem dashboard_filter
    (ctx : Retrying.page_context) (ai r : value)
    (flattened : list (string * value))
    (settings : FreeTier.run_settings) (page : FreeTier.page_visit)
    (error : js_error) :
  Retrying.auditResult ctx ai = Normal r ->
  Dashboard.results
    [ r;
      VObj (set_prop flattened "_type" (VStr "flattened_report"));
      FreeTier.failed_record settings page error ]
  = Normal [ r; FreeTier.failed_record settings page error ]
  /\ Dashboard.overallScore (FreeTier.failed_record settings page error)
     = Normal (VNum 0).
Proof.
  intros H. split; [|reflexivity].
  assert (Hr : Dashboard.shown r = Normal true).
  { destruct (comprehensive_record_fields ctx ai
                (comprehensive_record_needs_reply ctx ai r H))
      as (r' & Hr' & Hkeys & _).
    rewrite H in Hr'. injection Hr' as <-.
    destruct r as [| | | | | |props|]; try discriminate Hkeys.
    simpl in Hkeys.
    do 20 (destruct props as [|[? ?] props]; [discriminate Hkeys|]).
    destruct props; [|discriminate Hkeys].
    simpl in Hkeys.
    injection Hkeys as -> -> -> -> -> -> -> -> -> -> -> -> -> -> -> -> -> -> -> ->.
    reflexivity. }
  assert (Hf : Dashboard.shown
                 (VObj (set_prop flattened "_type" (VStr "flattened_report")))
               = Normal false).
  { unfold Dashboard.shown, get_prop.
    rewrite own_prop_set_prop_same. reflexivity. }
  unfold Dashboard.results. rewrite Hr, Hf. reflexivity.
Qed.

Lemma dashboard_filter_witness :
  exists r,
    Retrying.auditResult sample_comprehensive_context good_reply = Normal r /\
    Dashboard.results
      [ r;
        VObj (set_prop [("Website URL", VStr "https://example.com")]
                "_type" (VStr "flattened_report"));
        FreeTier.failed_record sample_settings sample_page unauthorized ]
    = Normal [ r; FreeTier.failed_record sample_settings sample_page unauthorized ].
Proof.
  eexists. split; [reflexivity|].
  apply (dashboard_filter sample_comprehensive_context good_reply _
           [("Website URL", VStr "https://example.com")]
           sample_settings sample_page unauthorized eq_refl).
Defined.

(** ** Escaping *)

Lemma characters_app (a b : string) :
  characters (a ++ b) = (characters a ++ characters b)%list.
Proof. induction a as [|c a IH]; simpl; [reflexivity | rewrite IH; reflexivity]. Qed.

Lemma escape_char_safe (c : ascii) :
  forallb (fun x => negb (markup_char x)) (characters (Dashboard.escape_char c))
  = true.
Proof.
  unfold Dashboard.escape_char.
  destruct (Ascii.eqb c "&"); [reflexivity|].
  destruct (Ascii.eqb c "<") eqn:E1; [reflexivity|].
  destruct (Ascii.eqb c ">") eqn:E2; [reflexivity|].
  destruct (Ascii.eqb c "034") eqn:E3; [reflexivity|].
  destruct (Ascii.eqb c "'") eqn:E4; [reflexivity|].
  simpl. unfold markup_char. rewrite E1, E2, E3, E4. reflexivity.
Qed.

(** X20: the text returned by [escapeHtml] contains no angle bracket,
    double quote or apostrophe; escaping distributes over concatenation
    and never shortens a text; a text without any of the five special
    characters is returned unchanged. *)
Theorem escaped_text_has_no_markup (text other : string) :
  forallb (fun c => negb (markup_char c))
    (characters (Dashboard.escapeHtml text)) = true /\
  Dashboard.escapeHtml (text ++ other)
    = Dashboard.escapeHtml text ++ Dashboard.escapeHtml other /\
  (String.length text <= String.length (Dashboard.escapeHtml text))%nat /\
  (forallb (fun c => negb (markup_char c || Ascii.eqb c "&")) (characters text)
     = true -> Dashboard.escapeHtml text = text).
Proof.
  split; [|split; [|split]].
  - induction text as [|c rest IH]; [reflexivity|].
    simpl. rewrite characters_app, forallb_app, escape_char_safe, IH. reflexivity.
  - induction text as [|c rest IH]; [reflexivity|].
    simpl. rewrite IH.
    generalize (Dashboard.escape_char c) as e. intros e.
    induction e as [|x e IHe]; simpl; [reflexivity | rewrite IHe; reflexivity].
  - induction text as [|c rest IH]; [simpl; lia|].
    simpl. unfold Dashboard.escape_char.
    destruct (Ascii.eqb c "&"); [simpl; lia|].
    destruct (Ascii.eqb c "<"); [simpl; lia|].
    destruct (Ascii.eqb c ">"); [simpl; lia|].
    destruct (Ascii.eqb c "034"); [simpl; lia|].
    destruct (Ascii.eqb c "'"); simpl; lia.
  - induction text as [|c rest IH]; [reflexivity|].
    simpl. intros H. apply andb_true_iff in H. destruct H as [Hc Hrest].
    rewrite (IH Hrest). unfold Dashboard.escape_char.
    unfold markup_char in Hc. apply negb_true_iff in Hc.
    apply orb_false_iff in Hc. destruct Hc as [Hc Ea].
    apply orb_false_iff in Hc. destruct Hc as [Hc E4].
    apply orb_false_iff in Hc. destruct Hc as [Hc E3].
    apply orb_false_iff in Hc. destruct Hc as [E1 E2].
    rewrite Ea, E1, E2, E3, E4. reflexivity.
Qed.

Lemma escaped_text_has_no_markup_witness :
  Dashboard.escapeHtml "Fix the CTA" = "Fix the CTA".
Proof.
  destruct (escaped_text_has_no_markup "Fix the CTA" "") as (_ & _ & _ & H).
  apply H. reflexivity.
Defined.



(** X21: in a free-mode run that still has quota, a provider reply that
    parses to [null] uses up one audit of the quota although the page
    ends as FAILED: the counter is incremented right after the call, and
    building the record then throws on [aiResult.score]. *)
Theorem null_reply_consumes_quota
    (PS : Type) (create : chat_request -> PS -> attempt_outcome * PS)
    (generate : FreeTier.gemini_json_request -> PS -> attempt_outcome * PS)
    (settings : FreeTier.run_settings) (page : FreeTier.page_visit)
    (st : FreeTier.run_state PS) (s1 : PS)
    (screenshotBase64 screenshotUrl : string) :
  FreeTier.run_isFreeMode settings = true ->
  FreeTier.canProcess (FreeTier.st_tracker st) = true ->
  FreeTier.visit_capture page = Normal (screenshotBase64, screenshotUrl) ->
  (forall req, create req (provider_state (FreeTier.st_world st))
               = (ContentParses VNull, s1)) ->
  (forall req, generate req (provider_state (FreeTier.st_world st))
               = (ContentParses VNull, s1)) ->
  let st' := FreeTier.requestHandler PS create generate settings page st in
  FreeTier.st_tracker st' = FreeTier.increment (FreeTier.st_tracker st) /\
  FreeTier.getRemaining (FreeTier.st_tracker st')
    = (FreeTier.getRemaining (FreeTier.st_tracker st) - 1)%Z /\
  FreeTier.st_dataset st'
    = (FreeTier.st_dataset st
       ++ [FreeTier.failed_record settings page
             (mkError "TypeError"
                (Some "Cannot read properties of null (reading 'score')"))])%list /\
  completed (FreeTier.st_dataset st') = completed (FreeTier.st_dataset st).
Proof.
  intros Hfree Hcan Hcap Hc Hg st'.
  assert (Hst : st' =
    FreeTier.mkState
      (mkWorld s1 (trace (FreeTier.st_world (FreeTier.requestHandler PS create
                                               generate settings page st))))
      (FreeTier.increment (FreeTier.st_tracker st))
      (FreeTier.st_dataset st
       ++ [FreeTier.failed_record settings page
             (mkError "TypeError"
                (Some "Cannot read properties of null (reading 'score')"))])).
  { unfold st', FreeTier.requestHandler. rewrite Hfree, Hcan, Hcap. simpl.
    destruct (prompt_total (FreeTier.run_analysisType settings)) as [p Hp].
    destruct (_ || _).
    - unfold FreeTier.analyzeWithOpenAI. rewrite Hp, Hc. reflexivity.
    - unfold FreeTier.analyzeWithGemini. rewrite Hp, Hg. reflexivity. }
  rewrite Hst. cbn [FreeTier.st_tracker FreeTier.st_dataset].
  split; [reflexivity|]. split.
  - unfold FreeTier.canProcess in Hcan. apply Z.ltb_lt in Hcan.
    unfold FreeTier.getRemaining, FreeTier.increment. simpl. lia.
  - split; [reflexivity|]. rewrite completed_snoc. simpl. lia.
Qed.

Lemma null_reply_consumes_quota_witness :
  FreeTier.st_tracker
    (FreeTier.requestHandler (list attempt_outcome)
       (fun _ _ => (ContentParses VNull, [])) (fun _ _ => (ContentParses VNull, []))
       sample_settings sample_page sample_run_state)
  = FreeTier.mkTracker 5 FreeTier.FREE_TIER_DAILY_LIMIT.
Proof.
  pose proof (null_reply_consumes_quota (list attempt_outcome)
    (fun _ _ => (ContentParses VNull, [])) (fun _ _ => (ContentParses VNull, []))
    sample_settings sample_page sample_run_state [] _ _
    eq_refl eq_refl eq_refl (fun _ => eq_refl) (fun _ => eq_refl)) as H.
  cbv zeta in H. destruct H as (H & _). exact H.
Defined.

(** * The build verification script *)

(** X22: the version test of the build script compares strings, not
    numbers: every version written "v1..." is rejected, Node 100 included,
    while every version written "v3..." to "v9..." passes, Node 9
    included. *)
Theorem version_check_is_lexicographic (rest : string) :
  VerifyBuild.rejected ("v1" ++ rest) = true /\
  VerifyBuild.rejected ("v100." ++ rest) = true /\
  VerifyBuild.rejected ("v3" ++ rest) = false /\
  VerifyBuild.rejected ("v9." ++ rest) = false /\
  VerifyBuild.rejected ("v20.0.0" ++ rest) = false /\
  VerifyBuild.rejected ("v21" ++ rest) = false.
Proof.
  repeat split.
  unfold VerifyBuild.rejected, VerifyBuild.requiredVersion, String.ltb.
  simpl. destruct rest; reflexivity.
Qed.
